(** * Transfer service and wallet-version settings of the wallet application

    A shallow embedding of
    - [packages/core/src/service/transfer/tonService.ts] (section
      [TonService]),
    - the list of [packages/uikit/src/pages/settings/Version.tsx] (module
      [VersionPage]),
    together with the properties the specification states about them.

    Conventions.
    - Amounts in the smallest unit ([BigNumber] wei amounts, [number]
      balances, [bigint] message values) are integers of [Z].
    - A JavaScript [Map<string, _>] is a [gmap string _]; [undefined] in a
      position of type [Maybe<T>] is [None].
    - The wallet SDK ([@ton/core], [@ton/crypto], the wallet contracts) is an
      opaque collaborator: what it builds is kept symbolic, as the record of
      the arguments it was called with.
    - Remote calls are answered by a [World]; they and the construction of a
      transfer by the SDK are recorded, in order, in a trace of [Call]s. A
      rejected promise or a thrown error is a [Throw]. *)

From Stdlib Require Import Ascii.
From stdpp Require Import base numbers strings list gmap.

Open Scope Z_scope.

(* ===================================================================== *)
(** ** Data model *)
(* ===================================================================== *)

(** [entries/wallet]: the versions that key [MAX_ALLOWED_WALLET_MSGS]. *)
Inductive WalletVersion : Type := V3R1 | V3R2 | V4R1 | V4R2 | W5.

#[global] Instance WalletVersion_eq_dec : EqDecision WalletVersion.
Proof. solve_decision. Defined.

Module Wallet.

(** [walletState.active]: the active contract of a wallet. *)
Record Active : Type := { rawAddress : string; version : WalletVersion }.

(** [WalletState]: public key and active contract. *)
Record State : Type := { publicKey : string; active : Active }.

End Wallet.

Module Account.

(** [tonApiV2.Account], reduced to the fields the service reads. *)
Record t : Type := { address : string; balance : Z; status : string }.

End Account.

Module Address.

(** The result of [Address.parseFriendly]. *)
Record Friendly : Type := { isBounceable : bool; isTestOnly : bool }.

(** [@ton/core]'s address parser, a parameter of the development:
    [Address.isFriendly] and [Address.parseFriendly]. *)
Class Sdk : Type := {
  isFriendly : string → bool;
  parseFriendly : string → Friendly
}.

End Address.

Module Recipient.

(** [TonRecipient]: a literal address, or an address resolved from a DNS
    name; ['dns' in recipient] tells them apart. *)
Inductive t : Type :=
| Base (address : string)
| Dns (address : string) (dns : string).

Definition address (r : t) : string :=
  match r with Base a => a | Dns a _ => a end.

Definition has_dns (r : t) : bool :=
  match r with Base _ => false | Dns _ _ => true end.

End Recipient.

Module RecipientData.

(** [TonRecipientData]. *)
Record t : Type := {
  address : Recipient.t;
  comment : string;
  toAccount : Account.t
}.

End RecipientData.

Module TonConnect.

(** One message of a [TonConnectTransactionPayload]. *)
Record Message : Type := {
  address : string;
  amount : Z;
  payload : option string;
  stateInit : option string
}.

Record Payload : Type := { valid_until : Z; messages : list Message }.

End TonConnect.

Module TransferMessage.

(** [TransferMessage] of the multi-transfer path. *)
Record t : Type := {
  to : string;
  bounce : bool;
  weiAmount : Z;
  comment : option string
}.

End TransferMessage.

(** [AccountEvent], reduced to its identifier and the [extra] field. *)
Record AccountEvent : Type := { eventId : string; extra : Z }.

(** [TransferEstimationEvent = { event }]. *)
Record TransferEstimationEvent : Type := { event : AccountEvent }.

(** [AssetAmount], reduced to [weiAmount]. *)
Record AssetAmount : Type := { weiAmount : Z }.

(** [AccountsMap = Map<string, Account>]. *)
Abbreviation AccountsMap := (gmap string Account.t).

(* ===================================================================== *)
(** ** The wallet SDK, symbolically *)
(* ===================================================================== *)

Module Sdk.

(** A [Buffer] holding a secret key: [Buffer.alloc(n)], or the key that
    [mnemonicToPrivateKey] derives from a mnemonic. *)
Inductive Buffer : Type :=
| Alloc (n : nat)
| SecretKeyOf (mnemonic : list string).

(** The [body] of an internal message: a text comment or
    [Cell.fromBase64(payload)]. *)
Inductive Body : Type :=
| Comment (text : string)
| CellFromBase64 (payload : string).

(** [loadStateInit(Cell.fromBase64(stateInit).asSlice())]. *)
Inductive StateInit : Type := LoadStateInit (stateInit : string).

(** The argument of [internal({ to, bounce, value, init, body })];
    [bounce] has type [Maybe<boolean>]. *)
Record Internal : Type := {
  to : string;
  bounce : option bool;
  value : Z;
  init : option StateInit;
  body : option Body
}.

(** The argument of [contract.createTransfer]. *)
Record CreateTransfer : Type := {
  seqno : Z;
  secretKey : Buffer;
  timeout : Z;
  sendMode : Z;
  messages : list Internal
}.

(** [externalMessage(contract, seqno, transfer).toBoc(opts)], where
    [contract = walletContractFromState(walletState)] and
    [transfer = contract.createTransfer(args)]; [idx] is the [idx] option of
    [toBoc], absent when [toBoc] is called without options. *)
Record Boc : Type := {
  contract : Wallet.State;
  externalSeqno : Z;
  transfer : CreateTransfer;
  idx : option bool
}.

(** [buffer.toString('base64')]. *)
Inductive Base64 : Type := ToBase64 (boc : Boc).

End Sdk.

(* ===================================================================== *)
(** ** Remote calls, failures and the monad of the service *)
(* ===================================================================== *)

(** What the service asks of its collaborators: the remote calls, with their
    arguments, and the construction of a transfer by the wallet SDK, with the
    envelope it yields. *)
Inductive Call : Type :=
| CallServiceTime
| CallGetAccount (accountId : string)
| CallGetWalletBalance (walletState : Wallet.State)
| CallGetWalletSeqNo (accountId : string)
| CallEmulateMessageToAccountEvent
    (ignoreSignatureCheck : bool) (accountId : string) (boc : Sdk.Base64)
| CallSendBlockchainMessage (boc : Sdk.Base64)
| CallCreateTransfer (cell : Sdk.Boc).

(** What an operation can fail with: the three conditions of the service,
    or the failure of a remote call, which propagates unchanged. *)
Inductive Thrown : Type :=
| DateAndTime
| NotEnoughBalance
| MessageCountExceeded
| RemoteFailure (call : Call).

Inductive result (A : Type) : Type :=
| Ok (a : A)
| Throw (e : Thrown).

Arguments Ok {A} a.
Arguments Throw {A} e.

(** The answers of the remote services ([None]: the call fails) and the
    value that [getTTL()] reads off the clock. *)
Record World : Type := {
  serviceTimeSync : option bool;
  fetchAccount : string → option Account.t;
  fetchWalletBalance : Wallet.State → option (Account.t * Z);
  fetchWalletSeqNo : string → option Z;
  emulate : bool → string → Sdk.Base64 → option AccountEvent;
  broadcast : Sdk.Base64 → option unit;
  ttl : Z
}.

(** A computation of the service: given the world, the trace of the calls
    it made and its outcome. *)
Definition M (A : Type) : Type := World → list Call * result A.

#[global] Instance M_ret : MRet M := λ A a _, ([], Ok a).

#[global] Instance M_bind : MBind M := λ A B f m w,
  match m w with
  | (t, Ok a) => let '(t', r) := f a w in (t ++ t', r)
  | (t, Throw e) => (t, Throw e)
  end.

Definition throw {A : Type} (e : Thrown) : M A := λ _, ([], Throw e).

(** A synchronous helper that returns or throws. *)
Definition lift {A : Type} (r : result A) : M A := λ _, ([], r).

(** One awaited remote call. *)
Definition call {A : Type} (c : Call) (answer : World → option A) : M A :=
  λ w, ([c], match answer w with
             | Some a => Ok a
             | None => Throw (RemoteFailure c)
             end).

Definition trace {A : Type} (run : list Call * result A) : list Call := run.1.

Definition outcome {A : Type} (run : list Call * result A) : result A := run.2.

(* ===================================================================== *)
(** ** [./common]: the helpers the service imports *)
(* ===================================================================== *)

(** The synchronous part of [./common], which is not among the sources: the
    [SendMode] constants and the three [...OrDie] checks, each of which
    returns or throws. The service is parametric in them. *)
Class Common : Type := {
  CARRY_ALL_REMAINING_BALANCE : Z;
  IGNORE_ERRORS : Z;
  PAY_GAS_SEPARATELY : Z;
  checkMaxAllowedMessagesInMultiTransferOrDie : Z → WalletVersion → result unit;
  checkWalletBalanceOrDie : Z → Account.t → result unit;
  checkWalletPositiveBalanceOrDie : Account.t → result unit
}.

(** Modelled from the spec: [seeIfServiceTimeSync] of [./common] is not among
    the sources. Spec 4.2: the remote service clock is either in sync or not;
    the answer comes from the remote service. *)
Definition seeIfServiceTimeSync : M bool :=
  call CallServiceTime serviceTimeSync.

(** Modelled from the spec: [checkServiceTimeOrDie] of [./common] is not
    among the sources. Spec 4.2 and 4.3: the remote service clock must be in
    sync, checked first; service-time desync fails with [date-and-time]. *)
Definition checkServiceTimeOrDie : M unit :=
  isSynced ← seeIfServiceTimeSync;
  if isSynced : bool then mret () else throw DateAndTime.

(** Modelled from the spec: [getWalletBalance] of [./common] is not among the
    sources. Spec 4.3: balance and sequence number are fetched afresh from
    the remote service immediately before use. *)
Definition getWalletBalance (walletState : Wallet.State) : M (Account.t * Z) :=
  call (CallGetWalletBalance walletState) (λ w, fetchWalletBalance w walletState).

(** Modelled from the spec: [getWalletSeqNo] of [./common] is not among the
    sources. Spec 4.4: the sequence number is re-fetched immediately before
    the signed message is constructed. *)
Definition getWalletSeqNo (accountId : string) : M Z :=
  call (CallGetWalletSeqNo accountId) (λ w, fetchWalletSeqNo w accountId).

(** [getTTL()] of [./common] reads the clock; its value is part of the world. *)
Definition getTTL : M Z := λ w, ([], Ok (ttl w)).

(** [new AccountsApi(api.tonApiV2).getAccount({ accountId })]. *)
Definition getAccount (accountId : string) : M Account.t :=
  call (CallGetAccount accountId) (λ w, fetchAccount w accountId).

(** [new EmulationApi(api.tonApiV2).emulateMessageToAccountEvent]. *)
Definition emulateMessageToAccountEvent
    (ignoreSignatureCheck : bool) (accountId : string) (boc : Sdk.Base64)
  : M AccountEvent :=
  call (CallEmulateMessageToAccountEvent ignoreSignatureCheck accountId boc)
       (λ w, emulate w ignoreSignatureCheck accountId boc).

(** [new BlockchainApi(api.tonApiV2).sendBlockchainMessage]. *)
Definition sendBlockchainMessage (boc : Sdk.Base64) : M unit :=
  call (CallSendBlockchainMessage boc) (λ w, broadcast w boc).

(** [contract.createTransfer(args)], wrapped by [externalMessage] and
    serialised by [toBoc]: the SDK builds the envelope [cell]. The limit that
    the wallet contract of the SDK puts on the number of messages, and the
    error it raises beyond it, are laid over a run by [checkedBySdk]. *)
Definition createTransfer (cell : Sdk.Boc) : M Sdk.Boc :=
  λ _, ([CallCreateTransfer cell], Ok cell).

(** [mnemonicToPrivateKey(mnemonic)]: local key derivation. *)
Definition mnemonicToPrivateKey (mnemonic : list string) : M Sdk.Buffer :=
  mret (Sdk.SecretKeyOf mnemonic).

(* ===================================================================== *)
(** ** [tonService.ts] *)
(* ===================================================================== *)

(** The per-version ceiling on the messages of one transfer. *)
Definition MAX_ALLOWED_WALLET_MSGS (version : WalletVersion) : Z :=
  match version with
  | W5 => 255
  | V4R2 => 4
  | V4R1 => 4
  | V3R2 => 4
  | V3R1 => 4
  end.

(** [ConnectTransferError]: the [kind] of the record. *)
Inductive ConnectTransferError : Type :=
| KindDateAndTime
| KindNotEnoughBalance
| KindUndefined.

Section TonService.

Context {sdk : Address.Sdk} {common : Common}.

(** Raw address is bounceable by default. *)
Definition seeIfAddressBounceable (address : string) : bool :=
  if Address.isFriendly address
  then Address.isBounceable (Address.parseFriendly address)
  else true.

(** [toAccount && toAccount.status === 'active'] is [undefined] when the map
    has no entry for the address, so [bounceableAddress || activeContract]
    is a value of [boolean | undefined]. *)
Definition seeIfBounceable (accounts : AccountsMap) (address : string)
  : option bool :=
  let bounceableAddress := seeIfAddressBounceable address in
  let toAccount := accounts !! address in
  let activeContract :=
    match toAccount with
    | None => None
    | Some toAccount => Some (bool_decide (Account.status toAccount = "active"))
    end in
  if bounceableAddress then Some true else activeContract.

Definition toStateInit (stateInit : option string) : option Sdk.StateInit :=
  match stateInit with
  | None => None
  | Some s =>
      if bool_decide (s = EmptyString) then None
      else Some (Sdk.LoadStateInit s)
  end.

Definition seeIfTransferBounceable
    (account : Account.t) (recipient : Recipient.t) : bool :=
  if Recipient.has_dns recipient then false
  else if negb (seeIfAddressBounceable (Recipient.address recipient)) then false
  else bool_decide (Account.status account = "active").

Definition createTonTransfer
    (seqno : Z) (walletState : Wallet.State) (recipient : RecipientData.t)
    (weiAmount : Z) (isMax : bool) (secretKey : Sdk.Buffer) : M Sdk.Boc :=
  timeout ← getTTL;
  createTransfer {|
    Sdk.contract := walletState;
    Sdk.externalSeqno := seqno;
    Sdk.transfer := {|
      Sdk.seqno := seqno;
      Sdk.secretKey := secretKey;
      Sdk.timeout := timeout;
      Sdk.sendMode :=
        if isMax
        then CARRY_ALL_REMAINING_BALANCE + IGNORE_ERRORS
        else PAY_GAS_SEPARATELY + IGNORE_ERRORS;
      Sdk.messages := [
        {| Sdk.to := Account.address (RecipientData.toAccount recipient);
           Sdk.bounce :=
             Some (seeIfTransferBounceable (RecipientData.toAccount recipient)
                                           (RecipientData.address recipient));
           Sdk.value := weiAmount;
           Sdk.init := None;
           Sdk.body :=
             if bool_decide (RecipientData.comment recipient ≠ EmptyString)
             then Some (Sdk.Comment (RecipientData.comment recipient))
             else None |}
      ] |};
    Sdk.idx := None
  |}.

Definition createTonConnectTransfer
    (seqno : Z) (walletState : Wallet.State) (accounts : AccountsMap)
    (params : TonConnect.Payload) (secretKey : Sdk.Buffer) : M Sdk.Boc :=
  timeout ← getTTL;
  createTransfer {|
    Sdk.contract := walletState;
    Sdk.externalSeqno := seqno;
    Sdk.transfer := {|
      Sdk.seqno := seqno;
      Sdk.secretKey := secretKey;
      Sdk.timeout := timeout;
      Sdk.sendMode := PAY_GAS_SEPARATELY + IGNORE_ERRORS;
      Sdk.messages :=
        map (λ item,
          {| Sdk.to := TonConnect.address item;
             Sdk.bounce := seeIfBounceable accounts (TonConnect.address item);
             Sdk.value := TonConnect.amount item;
             Sdk.init := toStateInit (TonConnect.stateInit item);
             Sdk.body :=
               match TonConnect.payload item with
               | Some p =>
                   if bool_decide (p = EmptyString) then None
                   else Some (Sdk.CellFromBase64 p)
               | None => None
               end |})
          (TonConnect.messages params) |};
    Sdk.idx := Some false
  |}.

Definition estimateTonTransfer
    (walletState : Wallet.State) (recipient : RecipientData.t)
    (weiAmount : Z) (isMax : bool) : M TransferEstimationEvent :=
  checkServiceTimeOrDie;;
  '(wallet, seqno) ← getWalletBalance walletState;
  (if negb isMax then lift (checkWalletPositiveBalanceOrDie wallet)
   else mret ());;
  cell ← createTonTransfer seqno walletState recipient weiAmount isMax
           (Sdk.Alloc 64);
  event ← emulateMessageToAccountEvent true (Account.address wallet)
            (Sdk.ToBase64 cell);
  mret {| event := event |}.

(** The total is a [BigNumber] and [wallet.balance] a JavaScript number;
    the comparison below is that of the integers they stand for, which is
    what [isGreaterThanOrEqualTo] computes as long as the balance is held
    exactly by the number ([safeInteger]). *)
Definition tonConnectTransferError
    (walletState : Wallet.State) (params : TonConnect.Payload)
  : M ConnectTransferError :=
  isSynced ← seeIfServiceTimeSync;
  if negb isSynced then mret KindDateAndTime
  else
    wallet ← getAccount (Wallet.rawAddress (Wallet.active walletState));
    let total :=
      fold_left (λ acc message, acc + TonConnect.amount message)
                (TonConnect.messages params) 0 in
    if total >=? Account.balance wallet
    then mret KindNotEnoughBalance
    else mret KindUndefined.

Definition estimateTonConnectTransfer
    (walletState : Wallet.State) (accounts : AccountsMap)
    (params : TonConnect.Payload) : M TransferEstimationEvent :=
  checkServiceTimeOrDie;;
  '(wallet, seqno) ← getWalletBalance walletState;
  lift (checkWalletPositiveBalanceOrDie wallet);;
  cell ← createTonConnectTransfer seqno walletState accounts params
           (Sdk.Alloc 64);
  event ← emulateMessageToAccountEvent true (Account.address wallet)
            (Sdk.ToBase64 cell);
  mret {| event := event |}.

Definition sendTonConnectTransfer
    (walletState : Wallet.State) (accounts : AccountsMap)
    (params : TonConnect.Payload) (mnemonic : list string) : M Sdk.Base64 :=
  checkServiceTimeOrDie;;
  secretKey ← mnemonicToPrivateKey mnemonic;
  seqno ← getWalletSeqNo (Wallet.rawAddress (Wallet.active walletState));
  external ← createTonConnectTransfer seqno walletState accounts params
               secretKey;
  let boc := Sdk.ToBase64 external in
  sendBlockchainMessage boc;;
  mret boc.

Definition sendTonTransfer
    (walletState : Wallet.State) (recipient : RecipientData.t)
    (amount : AssetAmount) (isMax : bool) (fee : TransferEstimationEvent)
    (mnemonic : list string) : M unit :=
  checkServiceTimeOrDie;;
  secretKey ← mnemonicToPrivateKey mnemonic;
  let total := extra (event fee) * (-1) + weiAmount amount in
  '(wallet, seqno) ← getWalletBalance walletState;
  (if negb isMax then lift (checkWalletBalanceOrDie total wallet)
   else mret ());;
  cell ← createTonTransfer seqno walletState recipient (weiAmount amount)
           isMax secretKey;
  sendBlockchainMessage (Sdk.ToBase64 cell).

(** Amounts are whole numbers of the smallest unit, for which
    [BigInt(msg.weiAmount.toFixed(0))] is the amount itself. *)
Definition createTonMultiTransfer
    (seqno : Z) (walletState : Wallet.State)
    (transferMessages : list TransferMessage.t)
    (secretKey : option Sdk.Buffer) : M Sdk.Boc :=
  timeout ← getTTL;
  createTransfer {|
    Sdk.contract := walletState;
    Sdk.externalSeqno := seqno;
    Sdk.transfer := {|
      Sdk.seqno := seqno;
      Sdk.secretKey := default (Sdk.Alloc 64) secretKey;
      Sdk.timeout := timeout;
      Sdk.sendMode := PAY_GAS_SEPARATELY + IGNORE_ERRORS;
      Sdk.messages :=
        map (λ msg,
          {| Sdk.to := TransferMessage.to msg;
             Sdk.bounce := Some (TransferMessage.bounce msg);
             Sdk.value := TransferMessage.weiAmount msg;
             Sdk.init := None;
             Sdk.body :=
               match TransferMessage.comment msg with
               | Some c =>
                   if bool_decide (c ≠ EmptyString)
                   then Some (Sdk.Comment c)
                   else None
               | None => None
               end |})
          transferMessages |};
    Sdk.idx := None
  |}.

Definition totalWeiAmount (transferMessages : list TransferMessage.t) : Z :=
  fold_left (λ acc msg, acc + TransferMessage.weiAmount msg) transferMessages 0.

Definition estimateTonMultiTransfer
    (walletState : Wallet.State) (transferMessages : list TransferMessage.t)
  : M AccountEvent :=
  checkServiceTimeOrDie;;
  let total := totalWeiAmount transferMessages in
  '(wallet, seqno) ← getWalletBalance walletState;
  lift (checkWalletBalanceOrDie total wallet);;
  lift (checkMaxAllowedMessagesInMultiTransferOrDie
          (Z.of_nat (length transferMessages))
          (Wallet.version (Wallet.active walletState)));;
  cell ← createTonMultiTransfer seqno walletState transferMessages None;
  emulateMessageToAccountEvent true (Account.address wallet)
    (Sdk.ToBase64 cell).

Definition sendTonMultiTransfer
    (walletState : Wallet.State) (transferMessages : list TransferMessage.t)
    (feeEstimate : Z) (mnemonic : list string) : M bool :=
  checkServiceTimeOrDie;;
  secretKey ← mnemonicToPrivateKey mnemonic;
  let total := totalWeiAmount transferMessages in
  '(wallet, seqno) ← getWalletBalance walletState;
  lift (checkWalletBalanceOrDie (total + feeEstimate) wallet);;
  lift (checkMaxAllowedMessagesInMultiTransferOrDie
          (Z.of_nat (length transferMessages))
          (Wallet.version (Wallet.active walletState)));;
  cell ← createTonMultiTransfer seqno walletState transferMessages
           (Some secretKey);
  sendBlockchainMessage (Sdk.ToBase64 cell);;
  mret true.

End TonService.

(* ===================================================================== *)
(** ** The checks of [./common] as the specification describes them *)
(* ===================================================================== *)

(** Modelled from the spec: [checkWalletBalanceOrDie] of [./common] is not
    among the sources. Spec 8: a non-max transfer must fail with
    [not-enough-balance] when [amount + estimatedFee ≥ balance], and succeed
    otherwise. *)
Definition specCheckWalletBalanceOrDie (total : Z) (wallet : Account.t)
  : result unit :=
  if total >=? Account.balance wallet then Throw NotEnoughBalance else Ok ().

(** Modelled from the spec: [checkMaxAllowedMessagesInMultiTransferOrDie] of
    [./common] is not among the sources. Spec 8: a batch with message count
    above the version's ceiling must fail with the message-count condition; a
    batch at or below the ceiling must proceed. *)
Definition specCheckMaxAllowedMessagesInMultiTransferOrDie
    (messagesNumber : Z) (walletVersion : WalletVersion) : result unit :=
  if messagesNumber >? MAX_ALLOWED_WALLET_MSGS walletVersion
  then Throw MessageCountExceeded
  else Ok ().

(** A [./common] whose balance and message-count checks are the specified
    ones; the send modes and the positive-balance check stay those of [c]. *)
Definition asSpecified (c : Common) : Common := {|
  CARRY_ALL_REMAINING_BALANCE := @CARRY_ALL_REMAINING_BALANCE c;
  IGNORE_ERRORS := @IGNORE_ERRORS c;
  PAY_GAS_SEPARATELY := @PAY_GAS_SEPARATELY c;
  checkMaxAllowedMessagesInMultiTransferOrDie :=
    specCheckMaxAllowedMessagesInMultiTransferOrDie;
  checkWalletBalanceOrDie := specCheckWalletBalanceOrDie;
  checkWalletPositiveBalanceOrDie := @checkWalletPositiveBalanceOrDie c
|}.


(* ===================================================================== *)
(** ** The specification's wording of the derived quantities *)
(* ===================================================================== *)

(** Spec 4.1, single transfer: false if the recipient is a DNS-style
    reference; false if the literal address encodes non-bounceable and is not
    yet an active contract; true otherwise. *)
Definition specTransferBounce
    `{sdk : Address.Sdk} (account : Account.t) (recipient : Recipient.t) : bool :=
  if Recipient.has_dns recipient then false
  else if negb (seeIfAddressBounceable (Recipient.address recipient))
          && negb (bool_decide (Account.status account = "active"))
  then false
  else true.

(** Spec 4.1, batch and TonConnect transfers: true unless the address is both
    syntactically non-bounceable and not an active account on chain. *)
Definition specBatchBounce
    `{sdk : Address.Sdk} (accounts : AccountsMap) (address : string) : bool :=
  let active :=
    match accounts !! address with
    | Some toAccount => bool_decide (Account.status toAccount = "active")
    | None => false
    end in
  negb (negb (seeIfAddressBounceable address) && negb active).

(** What the caller of a submission operation receives. *)
Inductive Returned : Type :=
| RetUndefined
| RetBoolean (b : bool)
| RetEnvelope (boc : Sdk.Base64).

(** Spec 4.4: the operation broadcasts the encoded envelope and, on success,
    returns that envelope to the caller. *)
Definition returnsBroadcastEnvelope
    {A : Type} (received : A → Returned) (run : list Call * result A) : Prop :=
  ∀ a, outcome run = Ok a →
    ∃ boc, last (trace run) = Some (CallSendBlockchainMessage boc)
           ∧ received a = RetEnvelope boc.

(* ===================================================================== *)
(** ** [Version.tsx]: the wallet versions shown on the settings page *)
(* ===================================================================== *)

Module VersionPage.

(** An entry of [useStandardTonWalletVersions]. *)
Record StandardWallet : Type := {
  version : WalletVersion;
  address : string;
  tonBalance : Z;
  hasJettons : bool
}.

(** What [WalletVersionPageContent] renders. *)
Inductive Rendered : Type :=
| SkeletonList
| ListBlock (entries : list StandardWallet)
| LedgerError (message : string).

Section Filter.

(** [backwardCompatibilityOnlyWalletVersions] of [entries/wallet]. *)
Variable backwardCompatibilityOnlyWalletVersions : list WalletVersion.

(** The predicate of [wallets.filter]; a number is truthy when it is not
    zero. *)
Definition shown
    (currentAccountWalletsVersions : list Wallet.Active) (w : StandardWallet)
  : bool :=
  negb (bool_decide (version w ∈ backwardCompatibilityOnlyWalletVersions))
  || existsb (λ item, bool_decide (Wallet.version item = version w))
             currentAccountWalletsVersions
  || bool_decide (tonBalance w ≠ 0)
  || hasJettons w.

Definition walletsToShow
    (wallets : list StandardWallet)
    (currentAccountWalletsVersions : list Wallet.Active)
  : list StandardWallet :=
  List.filter (shown currentAccountWalletsVersions) wallets.

Definition WalletVersionPageContent
    (accountType : string) (wallets : option (list StandardWallet))
    (currentAccountWalletsVersions : list Wallet.Active) : Rendered :=
  match wallets with
  | None => SkeletonList
  | Some wallets =>
      let isLedger := bool_decide (accountType = "ledger") in
      let isKeystone := bool_decide (accountType = "keystone") in
      if negb isLedger && negb isKeystone
      then ListBlock (walletsToShow wallets currentAccountWalletsVersions)
      else if isLedger then LedgerError "ledger_operation_not_supported"
      else LedgerError "operation_not_supported"
  end.

End Filter.

End VersionPage.

(* ===================================================================== *)
(** ** Concrete inputs *)
(* ===================================================================== *)

(** A stand-in for the SDK's parser, used to evaluate the definitions on
    concrete addresses: a friendly address has 48 characters, and the tag
    byte shows in its first character ([E], [k]: bounceable; [U], [0]: not). *)
Definition sampleSdk : Address.Sdk := {|
  Address.isFriendly s := bool_decide (String.length s = 48%nat);
  Address.parseFriendly s := {|
    Address.isBounceable :=
      match s with
      | String c _ => bool_decide (c = "E"%char ∨ c = "k"%char)
      | EmptyString => false
      end;
    Address.isTestOnly :=
      match s with
      | String c _ => bool_decide (c = "k"%char ∨ c = "0"%char)
      | EmptyString => false
      end |}
|}.

(** A [./common] for the examples: the usual send-mode values, the specified
    balance and message-count checks, and a positive-balance check that
    rejects negative balances. *)
Definition sampleCommon : Common := {|
  CARRY_ALL_REMAINING_BALANCE := 128;
  IGNORE_ERRORS := 2;
  PAY_GAS_SEPARATELY := 1;
  checkMaxAllowedMessagesInMultiTransferOrDie :=
    specCheckMaxAllowedMessagesInMultiTransferOrDie;
  checkWalletBalanceOrDie := specCheckWalletBalanceOrDie;
  checkWalletPositiveBalanceOrDie wallet :=
    if Account.balance wallet <? 0 then Throw NotEnoughBalance else Ok ()
|}.

(** A [./common] all of whose checks throw. *)
Definition strictCommon : Common := {|
  CARRY_ALL_REMAINING_BALANCE := 128;
  IGNORE_ERRORS := 2;
  PAY_GAS_SEPARATELY := 1;
  checkMaxAllowedMessagesInMultiTransferOrDie _ _ := Throw MessageCountExceeded;
  checkWalletBalanceOrDie _ _ := Throw NotEnoughBalance;
  checkWalletPositiveBalanceOrDie _ := Throw NotEnoughBalance
|}.

Definition rawAddr : string :=
  "0:83dfd552e63729b472fcbcc8c45ebcc6691702558b68ec7527e1ba403a0f31a8".

Definition bounceableAddr : string :=
  "EQCD39VS5jcptHL8vMjEXrzGaRcCVYto7HUn4bpAOg8xqB2N".

Definition nonBounceableAddr : string :=
  "UQCD39VS5jcptHL8vMjEXrzGaRcCVYto7HUn4bpAOg8xqEBI".

Definition accountOf (a : string) (bal : Z) (st : string) : Account.t :=
  {| Account.address := a; Account.balance := bal; Account.status := st |}.

Definition sampleWallet (v : WalletVersion) : Wallet.State := {|
  Wallet.publicKey := "c0ffee";
  Wallet.active := {| Wallet.rawAddress := rawAddr; Wallet.version := v |}
|}.

(** A world whose clock is in sync or not, whose wallet holds [bal] with
    sequence number 7, and whose other calls all succeed. *)
Definition sampleWorld (synced : bool) (bal : Z) : World := {|
  serviceTimeSync := Some synced;
  fetchAccount a := Some (accountOf a bal "active");
  fetchWalletBalance ws :=
    Some (accountOf (Wallet.rawAddress (Wallet.active ws)) bal "active", 7);
  fetchWalletSeqNo _ := Some 7;
  emulate _ _ _ := Some {| eventId := "event"; extra := -5000 |};
  broadcast _ := Some ();
  ttl := 1700000300
|}.

Definition sampleRecipient : RecipientData.t := {|
  RecipientData.address := Recipient.Base nonBounceableAddr;
  RecipientData.comment := EmptyString;
  RecipientData.toAccount := accountOf rawAddr 0 "uninit"
|}.

Definition sampleFee : TransferEstimationEvent :=
  {| event := {| eventId := "event"; extra := -5000 |} |}.

Definition sampleMnemonic : list string := ["abandon"; "ability"; "able"].

Definition sampleMessage : TransferMessage.t := {|
  TransferMessage.to := bounceableAddr;
  TransferMessage.bounce := true;
  TransferMessage.weiAmount := 100;
  TransferMessage.comment := None
|}.

Definition samplePayload (n : nat) : TonConnect.Payload := {|
  TonConnect.valid_until := 1700000300;
  TonConnect.messages :=
    replicate n {| TonConnect.address := nonBounceableAddr;
                   TonConnect.amount := 100;
                   TonConnect.payload := None;
                   TonConnect.stateInit := None |}
|}.

(* ===================================================================== *)
(** ** [tonService.ts]: the accounts map *)
(* ===================================================================== *)

(** [Promise.all] over requests that were all issued before any of them
    settled: every request makes its calls, and the result is the list of
    the answers, or a rejection. Each request here makes one call, so the
    trace is in the order of issue; of several rejections the one reported
    is the earliest in the list (their timing is not part of the world). *)
Fixpoint promiseAll {A : Type} (requests : list (M A)) : M (list A) :=
  λ w,
    match requests with
    | [] => ([], Ok [])
    | request :: rest =>
        let '(t, r) := request w in
        let '(ts, rs) := promiseAll rest w in
        (t ++ ts,
         match r, rs with
         | Ok a, Ok answers => Ok (a :: answers)
         | Throw e, _ => Throw e
         | Ok _, Throw e => Throw e
         end)
    end.

(** [new Map<string, Account>(entries)]: the entries are set in order, a
    later entry replacing an earlier one with the same key. *)
Definition newMap (entries : list (string * Account.t)) : AccountsMap :=
  fold_left (λ accounts entry, <[entry.1 := entry.2]> accounts) entries ∅.

Definition getAccountsMap (params : TonConnect.Payload) : M AccountsMap :=
  accounts ←
    promiseAll
      (map (λ message,
              account ← getAccount (TonConnect.address message);
              mret (TonConnect.address message, account))
           (TonConnect.messages params));
  mret (newMap accounts).

(** The addresses of the messages of a payload, in order. *)
Definition payloadAddresses (params : TonConnect.Payload) : list string :=
  map TonConnect.address (TonConnect.messages params).

(* ===================================================================== *)
(** ** What a run may ask of the collaborators *)
(* ===================================================================== *)

(** A call that an estimation may make: no broadcast, construction only with
    the all-zero placeholder key, emulation only with the signature check
    turned off. *)
Definition estimationCall (c : Call) : Prop :=
  match c with
  | CallSendBlockchainMessage _ => False
  | CallCreateTransfer cell =>
      Sdk.secretKey (Sdk.transfer cell) = Sdk.Alloc 64
  | CallEmulateMessageToAccountEvent ignoreSignatureCheck _ _ =>
      ignoreSignatureCheck = true
  | _ => True
  end.

(** A call that a submission with the given mnemonic may make: no
    emulation, and construction only with the key of the mnemonic. *)
Definition submissionCall (mnemonic : list string) (c : Call) : Prop :=
  match c with
  | CallEmulateMessageToAccountEvent _ _ _ => False
  | CallCreateTransfer cell =>
      Sdk.secretKey (Sdk.transfer cell) = Sdk.SecretKeyOf mnemonic
  | _ => True
  end.

(** A run of a submission with the given mnemonic: all its calls are calls
    of a submission, and either it broadcast nothing and failed, or its last
    two calls are the construction of an envelope signed with the key of the
    mnemonic and the broadcast of that envelope, nothing was broadcast
    before, and it succeeded unless the broadcast itself was rejected. *)
Definition submissionRun
    {A : Type} (mnemonic : list string) (run : list Call * result A) : Prop :=
  Forall (submissionCall mnemonic) (trace run)
  ∧ (((∀ boc, CallSendBlockchainMessage boc ∉ trace run)
   ∧ ∃ e, outcome run = Throw e)
  ∨ ∃ before cell,
      trace run
      = before ++ [CallCreateTransfer cell;
                   CallSendBlockchainMessage (Sdk.ToBase64 cell)]
      ∧ (∀ boc, CallSendBlockchainMessage boc ∉ before)
      ∧ Sdk.secretKey (Sdk.transfer cell) = Sdk.SecretKeyOf mnemonic
      ∧ ((∃ a, outcome run = Ok a)
         ∨ outcome run
           = Throw (RemoteFailure
                      (CallSendBlockchainMessage (Sdk.ToBase64 cell))))).

(** An envelope built for [walletState] at sequence number [seqno] in the
    world [w]: the contract is that of the wallet, the sequence number is
    used for the transfer and for the external message, and the timeout is
    the one read off the clock. *)
Definition builtFor
    (walletState : Wallet.State) (seqno : Z) (w : World) (cell : Sdk.Boc)
  : Prop :=
  Sdk.contract cell = walletState
  ∧ Sdk.externalSeqno cell = seqno
  ∧ Sdk.seqno (Sdk.transfer cell) = seqno
  ∧ Sdk.timeout (Sdk.transfer cell) = ttl w.

(** A message with an empty text comment, an empty payload cell or an empty
    state init. *)
Definition hasEmptyPart (message : Sdk.Internal) : Prop :=
  Sdk.body message = Some (Sdk.Comment EmptyString)
  ∨ Sdk.body message = Some (Sdk.CellFromBase64 EmptyString)
  ∨ Sdk.init message = Some (Sdk.LoadStateInit EmptyString).

(** The sum of a list of amounts. *)
Definition sumZ (amounts : list Z) : Z := foldr Z.add 0 amounts.

(** [Number.MAX_SAFE_INTEGER]. *)
Definition MAX_SAFE_INTEGER : Z := 2 ^ 53 - 1.

(** An integer that a JavaScript number holds exactly, and that [BigNumber]
    therefore reads exactly off the number. *)
Definition safeInteger (n : Z) : Prop :=
  - MAX_SAFE_INTEGER ≤ n ≤ MAX_SAFE_INTEGER.

(* ===================================================================== *)
(** ** The limit of the wallet contracts of the SDK *)
(* ===================================================================== *)





(* ===================================================================== *)
(** ** [Version.tsx]: the buttons of an entry *)
(* ===================================================================== *)

Module VersionEntries.

(** The buttons of a list item: [open] calls [onOpenWallet], [hide] calls
    [onHideWallet] and [add] calls [onAddWallet]. *)
Inductive Button : Type := Open | Hide | Add.

#[global] Instance Button_eq_dec : EqDecision Button.
Proof. solve_decision. Defined.

(** [currentAccountWalletsVersions.length > 1]. *)
Definition canHide (currentAccountWalletsVersions : list Wallet.Active) : bool :=
  bool_decide (1 < length currentAccountWalletsVersions)%nat.

(** [currentAccountWalletsVersions.some(w => w.rawAddress ===
    wallet.address.toRawString())]; the address of an entry is kept in its
    raw form. *)
Definition isWalletAdded
    (currentAccountWalletsVersions : list Wallet.Active)
    (wallet : VersionPage.StandardWallet) : bool :=
  existsb (λ w, bool_decide (Wallet.rawAddress w = VersionPage.address wallet))
          currentAccountWalletsVersions.

(** The buttons rendered in the [ListItem] of [wallet]. *)
Definition buttons
    (currentAccountWalletsVersions : list Wallet.Active)
    (wallet : VersionPage.StandardWallet) : list Button :=
  if isWalletAdded currentAccountWalletsVersions wallet
  then Open :: (if canHide currentAccountWalletsVersions then [Hide] else [])
  else [Add].

(** The items of the [ListBlock]: [walletsToShow.map(...)]. *)
Definition listItems
    (backwardCompatibilityOnlyWalletVersions : list WalletVersion)
    (wallets : list VersionPage.StandardWallet)
    (currentAccountWalletsVersions : list Wallet.Active)
  : list (VersionPage.StandardWallet * list Button) :=
  map (λ wallet, (wallet, buttons currentAccountWalletsVersions wallet))
      (VersionPage.walletsToShow backwardCompatibilityOnlyWalletVersions
         wallets currentAccountWalletsVersions).

End VersionEntries.

(* ===================================================================== *)
(** ** [AccountSettings.tsx]: the entries of the settings page *)
(* ===================================================================== *)

Module AccountSettings.

(** The routes the entries navigate to: members of [SettingsRoute] and
    [WalletSettingsRoute], passed through [relative]. *)
Inductive Route : Type :=
| SettingsRoute_recovery
| SettingsRoute_version
| SettingsRoute_ledgerIndexes
| SettingsRoute_pro
| SettingsRoute_jettons
| SettingsRoute_nft
| SettingsRoute_security
| SettingsRoute_account
| WalletSettingsRoute_connectedApps.

#[global] Instance Route_eq_dec : EqDecision Route.
Proof. solve_decision. Defined.

(** The [icon] of an entry: an icon component, the text of the wallet
    version, or [`# ${activeDerivationIndex + 1}`]. *)
Inductive Icon : Type :=
| RecoveryPhraseIcon
| WalletVersionText (version : WalletVersion)
| DerivationNumber (number : Z)
| SettingsProIcon
| ListOfTokensIcon
| SaleBadgeIcon
| SecurityIcon
| AppsIcon
| LogOutIcon
| WalletsIcon.

(** The [action] of an entry: [navigate(relative(route))] or
    [setDeleteAccount(true)]. *)
Inductive Action : Type :=
| Navigate (route : Route)
| SetDeleteAccount (value : bool).

#[global] Instance Action_eq_dec : EqDecision Action.
Proof. solve_decision. Defined.

Record SettingsItem : Type := {
  name : string;
  icon : Icon;
  action : Action
}.

(** The active account, reduced to what the entries read;
    [allAvailableDerivations] holds the indexes of the derivations. *)
Record Account : Type := {
  type : string;
  allAvailableDerivations : list Z;
  activeDerivationIndex : Z
}.

Section Items.

(** The translation function [t] of [useTranslation]. *)
Variable t : string → string.

(** The element types of [jettons.balances] and of the NFT list. *)
Context {Jetton Nft : Type}.

(** [items.push(item)] under a condition. *)
Definition pushIf (condition : bool) (item : SettingsItem)
    (items : list SettingsItem) : list SettingsItem :=
  if condition then items ++ [item] else items.

(** [items.unshift(item)] under a condition. *)
Definition unshiftIf (condition : bool) (item : SettingsItem)
    (items : list SettingsItem) : list SettingsItem :=
  if condition then item :: items else items.

Definition recoveryItem : SettingsItem :=
  {| name := t "settings_recovery_phrase"; icon := RecoveryPhraseIcon;
     action := Navigate SettingsRoute_recovery |}.

Definition versionItem (version : WalletVersion) : SettingsItem :=
  {| name := t "settings_wallet_version"; icon := WalletVersionText version;
     action := Navigate SettingsRoute_version |}.

Definition ledgerItem (account : Account) : SettingsItem :=
  {| name := t "settings_ledger_indexes";
     icon := DerivationNumber (activeDerivationIndex account + 1);
     action := Navigate SettingsRoute_ledgerIndexes |}.

Definition proItem : SettingsItem :=
  {| name := t "tonkeeper_pro"; icon := SettingsProIcon;
     action := Navigate SettingsRoute_pro |}.

Definition jettonsItem : SettingsItem :=
  {| name := t "settings_jettons_list"; icon := ListOfTokensIcon;
     action := Navigate SettingsRoute_jettons |}.

Definition nftItem : SettingsItem :=
  {| name := t "settings_collectibles_list"; icon := SaleBadgeIcon;
     action := Navigate SettingsRoute_nft |}.

Definition securityItem : SettingsItem :=
  {| name := t "settings_security"; icon := SecurityIcon;
     action := Navigate SettingsRoute_security |}.

Definition appsItem : SettingsItem :=
  {| name := t "settings_connected_apps"; icon := AppsIcon;
     action := Navigate WalletSettingsRoute_connectedApps |}.

Definition deleteItem : SettingsItem :=
  {| name := t "Delete_wallet_data"; icon := LogOutIcon;
     action := SetDeleteAccount true |}.

Definition manageItem : SettingsItem :=
  {| name := t "Manage_wallets"; icon := WalletsIcon;
     action := Navigate SettingsRoute_account |}.

(** [x?.length] as a condition: the list is there and not empty. *)
Definition nonEmpty {A : Type} (data : option (list A)) : bool :=
  match data with
  | Some (_ :: _) => true
  | _ => false
  end.

Definition isMnemonic (account : Account) : bool :=
  bool_decide (type account = "mnemonic").

Definition isTonOnly (account : Account) : bool :=
  bool_decide (type account = "ton-only").

Definition isLedger (account : Account) : bool :=
  bool_decide (type account = "ledger").

(** [mainItems] of [SingleAccountSettings], as the memo computes it;
    [jettons] stands for [jettons.balances]. *)
Definition singleMainItems
    (account : Account) (version : WalletVersion) (proFeatures : bool)
    (jettons : option (list Jetton)) (nft : option (list Nft))
  : list SettingsItem :=
  let items := [] in
  let items := pushIf (isMnemonic account) recoveryItem items in
  let items :=
    pushIf (isMnemonic account || isTonOnly account) (versionItem version)
      items in
  let items :=
    pushIf (isLedger account
            && bool_decide (1 < length (allAvailableDerivations account))%nat)
      (ledgerItem account) items in
  let items := unshiftIf proFeatures proItem items in
  let items := pushIf (nonEmpty jettons) jettonsItem items in
  let items := pushIf (nonEmpty nft) nftItem items in
  let items := items ++ [securityItem] in
  let items := items ++ [appsItem] in
  items.

(** [accountItems] of [MultipleAccountSettings]. *)
Definition multipleAccountItems (proFeatures : bool) : list SettingsItem :=
  let items := [manageItem] in
  let items := pushIf proFeatures proItem items in
  items.

(** [mainItems] of [MultipleAccountSettings]. *)
Definition multipleMainItems
    (account : Account) (version : WalletVersion)
    (jettons : option (list Jetton)) (nft : option (list Nft))
  : list SettingsItem :=
  let items := [] in
  let items := pushIf (isMnemonic account) recoveryItem items in
  let items :=
    pushIf (isMnemonic account || isTonOnly account) (versionItem version)
      items in
  let items :=
    pushIf (isLedger account
            && bool_decide (1 < length (allAvailableDerivations account))%nat)
      (ledgerItem account) items in
  let items := pushIf (nonEmpty jettons) jettonsItem items in
  let items := pushIf (nonEmpty nft) nftItem items in
  let items := items ++ [securityItem] in
  let items := items ++ [appsItem] in
  let items := items ++ [deleteItem] in
  items.

(** [AccountSettings]: the lists of [SettingsList]s that are rendered, for
    [accounts.length] accounts. *)
Definition AccountSettings
    (accountsLength : nat) (account : Account) (version : WalletVersion)
    (proFeatures : bool)
    (jettons : option (list Jetton)) (nft : option (list Nft))
  : list (list SettingsItem) :=
  if bool_decide (1 < accountsLength)%nat
  then [multipleAccountItems proFeatures;
        multipleMainItems account version jettons nft]
  else [singleMainItems account version proFeatures jettons nft].

End Items.

End AccountSettings.

(* ===================================================================== *)
(** ** [tronApi/models/RequestData.ts] *)
(* ===================================================================== *)

Module RequestData.

Section Json.

(** The JSON of a [RequestMessage], a [RequestMessage], and the converters
    of [./RequestMessage], which are parameters here. *)
Context {MessageJson RequestMessage : Type}.
Variable RequestMessageFromJSON : MessageJson → RequestMessage.
Variable RequestMessageToJSON : RequestMessage → MessageJson.

(** Any other defined value of a field (a string, a number, an object):
    the converters pass it through untouched. *)
Context {Other : Type}.

(** The value of a field of a JSON object, as far as the converters look
    into it. *)
Inductive Value : Type :=
| Undefined
| Null
| Array (items : list MessageJson)
| Defined (value : Other).

(** A parsed JSON document handed to the converters: absent, [null], or an
    object, which maps the keys it has to their values. *)
Inductive Json : Type :=
| JsonUndefined
| JsonNull
| JsonObject (fields : gmap string Value).

(** [RequestData]; the scalar fields hold whatever the JSON held. *)
Record t : Type := {
  fee : Value;
  feeToken : Value;
  feeReceiver : Value;
  deadline : Value;
  nonce : Value;
  messages : list RequestMessage
}.

(** What a converter from JSON evaluates to: [undefined] or [null] handed
    back as they are, a [RequestData], or a [TypeError] thrown. *)
Inductive Converted : Type :=
| ConvertedUndefined
| ConvertedNull
| Converted_ (value : t)
| TypeError.

(** [json[key]]: [undefined] for a key the object does not have. *)
Definition get (fields : gmap string Value) (key : string) : Value :=
  default Undefined (fields !! key).

(** [key in value]. *)
Definition has (fields : gmap string Value) (key : string) : bool :=
  bool_decide (is_Some (fields !! key)).

Definition instanceOfRequestData (value : gmap string Value) : bool :=
  let isInstance := true in
  let isInstance := isInstance && has value "fee" in
  let isInstance := isInstance && has value "feeToken" in
  let isInstance := isInstance && has value "feeReceiver" in
  let isInstance := isInstance && has value "deadline" in
  let isInstance := isInstance && has value "nonce" in
  let isInstance := isInstance && has value "messages" in
  isInstance.

(** [(json['messages'] as Array<any>).map(RequestMessageFromJSON)] throws
    when the value is not an array. *)
Definition RequestDataFromJSONTyped (json : Json) (ignoreDiscriminator : bool)
  : Converted :=
  match json with
  | JsonUndefined => ConvertedUndefined
  | JsonNull => ConvertedNull
  | JsonObject fields =>
      match get fields "messages" with
      | Array items =>
          Converted_ {|
            fee := get fields "fee";
            feeToken := get fields "feeToken";
            feeReceiver := get fields "feeReceiver";
            deadline := get fields "deadline";
            nonce := get fields "nonce";
            messages := map RequestMessageFromJSON items
          |}
      | _ => TypeError
      end
  end.

Definition RequestDataFromJSON (json : Json) : Converted :=
  RequestDataFromJSONTyped json false.

(** The argument of [RequestDataToJSON]: [undefined], [null] or a value. *)
Inductive Optional : Type :=
| ValueUndefined
| ValueNull
| ValueOf (value : t).

Definition RequestDataToJSON (value : Optional) : Json :=
  match value with
  | ValueUndefined => JsonUndefined
  | ValueNull => JsonNull
  | ValueOf value =>
      JsonObject
        (<["fee" := fee value]>
           (<["feeToken" := feeToken value]>
              (<["feeReceiver" := feeReceiver value]>
                 (<["deadline" := deadline value]>
                    (<["nonce" := nonce value]>
                       (<["messages" :=
                            Array (map RequestMessageToJSON (messages value))]>
                          ∅))))))
  end.

(** The six keys of a [RequestData]. *)
Definition keys : list string :=
  ["fee"; "feeToken"; "feeReceiver"; "deadline"; "nonce"; "messages"].

End Json.

End RequestData.

(* ===================================================================== *)
(** ** Further concrete inputs *)
(* ===================================================================== *)

(** A payload of two messages, to a bounceable and to a non-bounceable
    address. *)
Definition mixedPayload : TonConnect.Payload := {|
  TonConnect.valid_until := 1700000300;
  TonConnect.messages := [
    {| TonConnect.address := bounceableAddr; TonConnect.amount := 100;
       TonConnect.payload := None; TonConnect.stateInit := None |};
    {| TonConnect.address := nonBounceableAddr; TonConnect.amount := 200;
       TonConnect.payload := None; TonConnect.stateInit := None |}
  ]
|}.

(** A world like [sampleWorld true bal], except that every account is
    reported as not yet initialised and the account call fails for
    [missing]. *)
Definition worldWithout (missing : string) (bal : Z) : World := {|
  serviceTimeSync := Some true;
  fetchAccount a :=
    if bool_decide (a = missing) then None
    else Some (accountOf a bal "uninit");
  fetchWalletBalance ws :=
    Some (accountOf (Wallet.rawAddress (Wallet.active ws)) bal "active", 7);
  fetchWalletSeqNo _ := Some 7;
  emulate _ _ _ := Some {| eventId := "event"; extra := -5000 |};
  broadcast _ := Some ();
  ttl := 1700000300
|}.


(** A [RequestData] whose messages are plain strings. *)
Definition sampleRequestData : @RequestData.t string string string := {|
  RequestData.fee := RequestData.Defined "10";
  RequestData.feeToken := RequestData.Defined "TRX";
  RequestData.feeReceiver := RequestData.Defined "T9yD";
  RequestData.deadline := RequestData.Defined "1700000300";
  RequestData.nonce := RequestData.Undefined;
  RequestData.messages := ["first"; "second"]
|}.

(** A JSON object with an unknown key and without most of the known ones. *)
Definition sampleRequestJson : gmap string (@RequestData.Value string string) :=
  <["messages" := RequestData.Array ["first"]]>
    (<["extra" := RequestData.Defined "x"]> ∅).

(* ===================================================================== *)
(** ** Running the service: equations of the monad *)
(* ===================================================================== *)

Lemma bind_Throw {A B : Type} (m : M A) (f : A → M B) (w : World) t e :
  m w = (t, Throw e) → (m ≫= f) w = (t, Throw e).
Proof. intros Hm. unfold mbind, M_bind. by rewrite Hm. Qed.

Lemma checkServiceTimeOrDie_desynced (w : World) :
  serviceTimeSync w = Some false →
  checkServiceTimeOrDie w = ([CallServiceTime], Throw DateAndTime).
Proof.
  intros Hs. unfold checkServiceTimeOrDie, seeIfServiceTimeSync, call.
  unfold mbind, M_bind. by rewrite Hs.
Qed.

(** Case analysis on the answer of the world to the last remote call. *)
Ltac case_answer :=
  match goal with
  | |- context [broadcast ?w ?b] => destruct (broadcast w b)
  | |- context [emulate ?w ?i ?a ?b] => destruct (emulate w i a b)
  | |- context [fetchWalletSeqNo ?w ?a] => destruct (fetchWalletSeqNo w a)
  | |- context [fetchWalletBalance ?w ?a] =>
      destruct (fetchWalletBalance w a) as [[? ?]|]
  | |- context [fetchAccount ?w ?a] => destruct (fetchAccount w a)
  | |- context [serviceTimeSync ?w] => destruct (serviceTimeSync w) as [[|]|]
  end; simpl.

(** Unfolds the monad down to the answers of the world. *)
Ltac run_service :=
  unfold mbind, M_bind, mret, M_ret, throw, lift, call, getTTL, createTransfer,
         trace, outcome in *; simpl in *.

(* ===================================================================== *)
(** ** Bounce flags *)
(* ===================================================================== *)

Section BounceFacts.

Context {sdk : Address.Sdk}.

(** C10. An address string that is not in friendly format (a raw address) is
    syntactically bounceable: [seeIfAddressBounceable] returns true. Both
    derivations then treat it as bounceable: the batch flag is true, and the
    single-transfer flag of a literal recipient is decided by the status of
    the destination account alone. *)
Theorem raw_address_bounceable (address : string) :
  Address.isFriendly address = false →
  seeIfAddressBounceable address = true
  ∧ (∀ accounts, seeIfBounceable accounts address = Some true)
  ∧ (∀ account,
       seeIfTransferBounceable account (Recipient.Base address)
       = bool_decide (Account.status account = "active")).
Proof.
  intros Hraw.
  assert (Hb : seeIfAddressBounceable address = true)
    by (unfold seeIfAddressBounceable; by rewrite Hraw).
  split; [done|]. split.
  - intros accounts. unfold seeIfBounceable. by rewrite Hb.
  - intros account. unfold seeIfTransferBounceable. simpl. by rewrite Hb.
Qed.

(** The single-transfer flag as a conjunction of its three guards. *)
Lemma seeIfTransferBounceable_eq (account : Account.t) (recipient : Recipient.t) :
  seeIfTransferBounceable account recipient
  = negb (Recipient.has_dns recipient)
    && seeIfAddressBounceable (Recipient.address recipient)
    && bool_decide (Account.status account = "active").
Proof.
  unfold seeIfTransferBounceable.
  destruct (Recipient.has_dns recipient); [done|].
  by destruct (seeIfAddressBounceable (Recipient.address recipient)).
Qed.

End BounceFacts.

Section ConstructionFacts.

Context {sdk : Address.Sdk} {common : Common}.

(** C1 (amended). For every single-transfer construction, the derived bounce
    flag is true exactly when the recipient is not a DNS-style reference, its
    literal address is syntactically bounceable and the destination account
    is active. So it is false for a DNS-style reference, false for a
    syntactically non-bounceable address whatever the status of the
    destination account, and false for a bounceable address whose destination
    account is not active. The one message that [createTonTransfer] builds
    carries this flag. *)
Theorem transfer_bounce_flag
    (seqno : Z) (walletState : Wallet.State) (recipient : RecipientData.t)
    (weiAmount : Z) (isMax : bool) (secretKey : Sdk.Buffer) (w : World) :
  let account := RecipientData.toAccount recipient in
  let target := RecipientData.address recipient in
  (seeIfTransferBounceable account target = true
   ↔ Recipient.has_dns target = false
     ∧ seeIfAddressBounceable (Recipient.address target) = true
     ∧ Account.status account = "active")
  ∧ ∃ cell,
      createTonTransfer seqno walletState recipient weiAmount isMax secretKey w
      = ([CallCreateTransfer cell], Ok cell)
      ∧ map Sdk.bounce (Sdk.messages (Sdk.transfer cell))
        = [Some (seeIfTransferBounceable account target)].
Proof.
  intros account target. split.
  - rewrite seeIfTransferBounceable_eq, !andb_true_iff, negb_true_iff,
      bool_decide_eq_true. tauto.
  - eexists. split; [reflexivity|]. reflexivity.
Qed.

(** The three values of [seeIfBounceable]. For every message of a batch or
    TonConnect transfer, the value that [seeIfBounceable] derives is: true when the address is
    syntactically bounceable or its entry in the accounts map is in status
    [active]; false when the address is syntactically non-bounceable and its
    entry in the map is in another status; and [undefined], no flag at all,
    when the address is syntactically non-bounceable and the map has no entry
    for it. [createTonConnectTransfer] hands this value to each message. *)
Lemma seeIfBounceable_values (accounts : AccountsMap) (address : string) :
  (seeIfBounceable accounts address = Some true
   ↔ seeIfAddressBounceable address = true
     ∨ ∃ toAccount, accounts !! address = Some toAccount
                    ∧ Account.status toAccount = "active")
  ∧ (seeIfBounceable accounts address = Some false
     ↔ seeIfAddressBounceable address = false
       ∧ ∃ toAccount, accounts !! address = Some toAccount
                      ∧ Account.status toAccount ≠ "active")
  ∧ (seeIfBounceable accounts address = None
     ↔ seeIfAddressBounceable address = false ∧ accounts !! address = None)
  ∧ ∀ seqno walletState params secretKey w,
      ∃ cell,
        createTonConnectTransfer seqno walletState accounts params secretKey w
        = ([CallCreateTransfer cell], Ok cell)
        ∧ map Sdk.bounce (Sdk.messages (Sdk.transfer cell))
          = map (λ item, seeIfBounceable accounts (TonConnect.address item))
                (TonConnect.messages params).
Proof.
  split; [|split; [|split]].
  - unfold seeIfBounceable.
    destruct (seeIfAddressBounceable address);
      destruct (accounts !! address) as [toAccount|]; split; eauto.
    + intros [= Hd%bool_decide_eq_true]. eauto.
    + intros [? | (a & [= <-] & Hs)]; [done|]. by rewrite bool_decide_true.
    + done.
    + intros [? | (a & ? & _)]; done.
  - unfold seeIfBounceable.
    destruct (seeIfAddressBounceable address);
      destruct (accounts !! address) as [toAccount|]; split;
      try done; try (by intros [? _]).
    + intros [= Hd%bool_decide_eq_false]. eauto.
    + intros [_ (a & [= <-] & Hs)]. by rewrite bool_decide_false.
    + by intros [_ (a & ? & _)].
  - unfold seeIfBounceable.
    destruct (seeIfAddressBounceable address);
      destruct (accounts !! address) as [toAccount|]; split;
      try done; by intros [? ?].
  - intros. eexists. split; [reflexivity|]. simpl. by rewrite map_map.
Qed.

(** C7. For every message of a batch or TonConnect transfer whose address
    has its account in the accounts map, the derived bounce flag is true
    unless the address is syntactically non-bounceable and that account is
    not in status [active], in which case it is false; this is the flag that
    the specification words. [createTonConnectTransfer] hands the flag
    derived by [seeIfBounceable] to each message. *)
Theorem batch_bounce_flag_of_account
    (accounts : AccountsMap) (address : string) (toAccount : Account.t) :
  accounts !! address = Some toAccount →
  let nonBounceableAndInactive :=
    seeIfAddressBounceable address = false
    ∧ Account.status toAccount ≠ "active" in
  (nonBounceableAndInactive → seeIfBounceable accounts address = Some false)
  ∧ (¬ nonBounceableAndInactive →
     seeIfBounceable accounts address = Some true)
  ∧ seeIfBounceable accounts address
    = Some (specBatchBounce accounts address)
  ∧ ∀ seqno walletState params secretKey w,
      ∃ cell,
        createTonConnectTransfer seqno walletState accounts params secretKey w
        = ([CallCreateTransfer cell], Ok cell)
        ∧ map Sdk.bounce (Sdk.messages (Sdk.transfer cell))
          = map (λ item, seeIfBounceable accounts (TonConnect.address item))
                (TonConnect.messages params).
Proof.
  intros Hget nonBounceableAndInactive. subst nonBounceableAndInactive.
  unfold seeIfBounceable, specBatchBounce. rewrite Hget.
  destruct (seeIfAddressBounceable address); simpl.
  - repeat split; try done.
    + by intros [? _].
    + intros. eexists. split; [reflexivity|]. simpl. by rewrite map_map.
  - repeat split.
    + intros [_ Hstatus]. by rewrite bool_decide_false.
    + intros Hnot. rewrite bool_decide_true; [done|].
      destruct (decide (Account.status toAccount = "active")); [done|].
      by destruct Hnot.
    + by rewrite negb_involutive.
    + intros. eexists. split; [reflexivity|]. simpl. by rewrite map_map.
Qed.

End ConstructionFacts.

(** C1 (counterexample). With a syntactically non-bounceable literal address
    and an active destination account the code derives false, where the
    claim says true; with a bounceable literal address and a destination
    account that is not active the code derives false, where the claim says
    true. *)
Lemma transfer_bounce_claim_fails :
  let nonBounceable := Recipient.Base nonBounceableAddr in
  let bounceable := Recipient.Base bounceableAddr in
  let activeAccount := accountOf rawAddr 10 "active" in
  let inactiveAccount := accountOf rawAddr 0 "uninit" in
  (@seeIfAddressBounceable sampleSdk nonBounceableAddr = false
   ∧ @seeIfTransferBounceable sampleSdk activeAccount nonBounceable = false
   ∧ @specTransferBounce sampleSdk activeAccount nonBounceable = true)
  ∧ (@seeIfAddressBounceable sampleSdk bounceableAddr = true
     ∧ @seeIfTransferBounceable sampleSdk inactiveAccount bounceable = false
     ∧ @specTransferBounce sampleSdk inactiveAccount bounceable = true).
Proof. vm_compute. done. Qed.

(** For a syntactically non-bounceable address that has no entry in the
    accounts map, [seeIfBounceable] derives [undefined] rather than false. *)
Lemma batch_bounce_without_entry :
  @seeIfAddressBounceable sampleSdk nonBounceableAddr = false
  ∧ (∅ : AccountsMap) !! nonBounceableAddr = None
  ∧ @specBatchBounce sampleSdk ∅ nonBounceableAddr = false
  ∧ @seeIfBounceable sampleSdk ∅ nonBounceableAddr = None
  ∧ @seeIfBounceable sampleSdk ∅ nonBounceableAddr
    ≠ Some (@specBatchBounce sampleSdk ∅ nonBounceableAddr).
Proof. vm_compute. repeat split; done. Qed.

(** C7 (witness): a non-bounceable address whose account in the map is not
    yet initialised. *)
Lemma batch_bounce_flag_of_account_witness :
  @seeIfBounceable sampleSdk
    {[ nonBounceableAddr := accountOf nonBounceableAddr 0 "uninit" ]}
    nonBounceableAddr
  = Some false.
Proof.
  destruct (@batch_bounce_flag_of_account sampleSdk sampleCommon
              {[ nonBounceableAddr := accountOf nonBounceableAddr 0 "uninit" ]}
              nonBounceableAddr (accountOf nonBounceableAddr 0 "uninit")
              (lookup_singleton_eq _ _))
    as [Hfalse _].
  apply Hfalse. split; [reflexivity | discriminate].
Defined.

(** C10 (witness): the raw form of an address. *)
Lemma raw_address_bounceable_witness :
  @Address.isFriendly sampleSdk rawAddr = false
  ∧ @seeIfAddressBounceable sampleSdk rawAddr = true.
Proof.
  split; [reflexivity|].
  apply (@raw_address_bounceable sampleSdk rawAddr). reflexivity.
Defined.

(* ===================================================================== *)
(** ** Validation gates *)
(* ===================================================================== *)

Section Gates.

Context {sdk : Address.Sdk}.

(** C5. When the remote service clock is out of sync, each of the seven
    exported transfer operations stops after the service-time call, the only
    remote call it makes: six fail with [date-and-time], and
    [tonConnectTransferError] returns it as the error kind. No balance fetch,
    message construction, emulation or broadcast takes place. *)
Theorem desync_short_circuits
    {common : Common} (w : World) (walletState : Wallet.State)
    (recipient : RecipientData.t) (weiAmount : Z) (amount : AssetAmount)
    (isMax : bool) (fee : TransferEstimationEvent)
    (accounts : AccountsMap) (params : TonConnect.Payload)
    (transferMessages : list TransferMessage.t) (feeEstimate : Z)
    (mnemonic : list string) :
  serviceTimeSync w = Some false →
  estimateTonTransfer walletState recipient weiAmount isMax w
  = ([CallServiceTime], Throw DateAndTime)
  ∧ estimateTonConnectTransfer walletState accounts params w
    = ([CallServiceTime], Throw DateAndTime)
  ∧ sendTonConnectTransfer walletState accounts params mnemonic w
    = ([CallServiceTime], Throw DateAndTime)
  ∧ sendTonTransfer walletState recipient amount isMax fee mnemonic w
    = ([CallServiceTime], Throw DateAndTime)
  ∧ estimateTonMultiTransfer walletState transferMessages w
    = ([CallServiceTime], Throw DateAndTime)
  ∧ sendTonMultiTransfer walletState transferMessages feeEstimate mnemonic w
    = ([CallServiceTime], Throw DateAndTime)
  ∧ tonConnectTransferError walletState params w
    = ([CallServiceTime], Ok KindDateAndTime).
Proof.
  intros Hdesync.
  pose proof (checkServiceTimeOrDie_desynced w Hdesync) as Hdie.
  repeat split;
    try (by apply (bind_Throw checkServiceTimeOrDie _ w [CallServiceTime])).
  unfold tonConnectTransferError, seeIfServiceTimeSync. run_service.
  by rewrite Hdesync.
Qed.

(** C2. A non-max single transfer that reaches the balance gate (the clock
    is in sync and the balance fetch answered) fails with
    [not-enough-balance] exactly when the amount plus the previously
    estimated fee is at least the fetched balance, and then makes no further
    call; otherwise it constructs the message and submits it. *)
Theorem non_max_balance_gate
    (c : Common) (w : World) (walletState : Wallet.State)
    (recipient : RecipientData.t) (amount : AssetAmount)
    (fee : TransferEstimationEvent) (mnemonic : list string)
    (wallet : Account.t) (seqno : Z) :
  serviceTimeSync w = Some true →
  fetchWalletBalance w walletState = Some (wallet, seqno) →
  let run :=
    @sendTonTransfer sdk (asSpecified c)
      walletState recipient amount false fee mnemonic w in
  let estimatedFee := - extra (event fee) in
  (outcome run = Throw NotEnoughBalance
   ↔ Account.balance wallet ≤ weiAmount amount + estimatedFee)
  ∧ (Account.balance wallet ≤ weiAmount amount + estimatedFee →
     trace run = [CallServiceTime; CallGetWalletBalance walletState])
  ∧ (weiAmount amount + estimatedFee < Account.balance wallet →
     ∃ cell,
       @createTonTransfer sdk (asSpecified c) seqno walletState recipient
         (weiAmount amount) false (Sdk.SecretKeyOf mnemonic) w
       = ([CallCreateTransfer cell], Ok cell)
       ∧ trace run = [CallServiceTime; CallGetWalletBalance walletState;
                      CallCreateTransfer cell;
                      CallSendBlockchainMessage (Sdk.ToBase64 cell)]).
Proof.
  intros Hsync Hfetch run estimatedFee. subst run estimatedFee.
  unfold sendTonTransfer, checkServiceTimeOrDie, seeIfServiceTimeSync,
    getWalletBalance, mnemonicToPrivateKey, sendBlockchainMessage,
    createTonTransfer.
  run_service. rewrite Hsync, Hfetch. simpl.
  unfold specCheckWalletBalanceOrDie.
  destruct (Z.geb_spec (extra (event fee) * -1 + weiAmount amount)
                       (Account.balance wallet)) as [Hge|Hlt]; simpl.
  - repeat split; try done; try lia.
  - repeat split; try lia.
    + by case_answer.
    + intros _. eexists. split; [reflexivity|]. by repeat case_answer.
Qed.

End Gates.

Section MultiTransferGate.


(** The balance check comes before the message-count check: a batch that the
    balance does not cover fails with [not-enough-balance], whatever its
    length. *)
Lemma multi_transfer_balance_first
    (c : Common) (w : World) (walletState : Wallet.State)
    (transferMessages : list TransferMessage.t)
    (wallet : Account.t) (seqno : Z) :
  serviceTimeSync w = Some true →
  fetchWalletBalance w walletState = Some (wallet, seqno) →
  Account.balance wallet ≤ totalWeiAmount transferMessages →
  estimateTonMultiTransfer (common := asSpecified c)
    walletState transferMessages w
  = ([CallServiceTime; CallGetWalletBalance walletState],
     Throw NotEnoughBalance).
Proof.
  intros Hsync Hfetch Hbalance.
  unfold estimateTonMultiTransfer, checkServiceTimeOrDie,
    seeIfServiceTimeSync, getWalletBalance.
  run_service. rewrite Hsync, Hfetch. simpl.
  unfold specCheckWalletBalanceOrDie.
  by destruct (Z.geb_spec (totalWeiAmount transferMessages)
                          (Account.balance wallet)); [|lia].
Qed.

End MultiTransferGate.

Section SendMax.

Context {sdk : Address.Sdk} {common : Common}.

(** C4. A single transfer with [isMax = true] is constructed with send mode
    [CARRY_ALL_REMAINING_BALANCE + IGNORE_ERRORS] whatever the amount, and
    neither the positive-balance check of [estimateTonTransfer] nor the
    amount-plus-fee balance check of [sendTonTransfer] is run: after the
    balance fetch the operations go on to emulation and to broadcast even
    where the check would throw. With [isMax = false] the send mode is
    [PAY_GAS_SEPARATELY + IGNORE_ERRORS] and the checks are applied: when the
    check throws the operation fails with what it throws and makes no
    further call, and when it passes the operation goes on. *)
Theorem send_max_mode_and_checks
    (w : World) (walletState : Wallet.State) (recipient : RecipientData.t)
    (requested : Z) (amount : AssetAmount) (fee : TransferEstimationEvent)
    (mnemonic : list string) (wallet : Account.t) (seqno : Z) :
  serviceTimeSync w = Some true →
  fetchWalletBalance w walletState = Some (wallet, seqno) →
  let total := extra (event fee) * (-1) + weiAmount amount in
  let estimated isMax :=
    estimateTonTransfer walletState recipient requested isMax w in
  let sent isMax :=
    sendTonTransfer walletState recipient amount isMax fee mnemonic w in
  let fetched := [CallServiceTime; CallGetWalletBalance walletState] in
  (∀ isMax anyAmount secretKey,
     ∃ cell,
       createTonTransfer seqno walletState recipient anyAmount isMax secretKey w
       = ([CallCreateTransfer cell], Ok cell)
       ∧ Sdk.sendMode (Sdk.transfer cell)
         = if isMax then CARRY_ALL_REMAINING_BALANCE + IGNORE_ERRORS
           else PAY_GAS_SEPARATELY + IGNORE_ERRORS)
  ∧ (∃ cell,
       createTonTransfer seqno walletState recipient requested true
         (Sdk.Alloc 64) w = ([CallCreateTransfer cell], Ok cell)
       ∧ trace (estimated true)
         = fetched ++ [CallCreateTransfer cell;
                       CallEmulateMessageToAccountEvent true
                         (Account.address wallet) (Sdk.ToBase64 cell)])
  ∧ (∀ e, checkWalletPositiveBalanceOrDie wallet = Throw e →
          estimated false = (fetched, Throw e))
  ∧ (checkWalletPositiveBalanceOrDie wallet = Ok () →
     ∃ cell,
       createTonTransfer seqno walletState recipient requested false
         (Sdk.Alloc 64) w = ([CallCreateTransfer cell], Ok cell)
       ∧ trace (estimated false)
         = fetched ++ [CallCreateTransfer cell;
                       CallEmulateMessageToAccountEvent true
                         (Account.address wallet) (Sdk.ToBase64 cell)])
  ∧ (∃ cell,
       createTonTransfer seqno walletState recipient (weiAmount amount) true
         (Sdk.SecretKeyOf mnemonic) w = ([CallCreateTransfer cell], Ok cell)
       ∧ trace (sent true)
         = fetched ++ [CallCreateTransfer cell;
                       CallSendBlockchainMessage (Sdk.ToBase64 cell)])
  ∧ (∀ e, checkWalletBalanceOrDie total wallet = Throw e →
          sent false = (fetched, Throw e))
  ∧ (checkWalletBalanceOrDie total wallet = Ok () →
     ∃ cell,
       createTonTransfer seqno walletState recipient (weiAmount amount) false
         (Sdk.SecretKeyOf mnemonic) w = ([CallCreateTransfer cell], Ok cell)
       ∧ trace (sent false)
         = fetched ++ [CallCreateTransfer cell;
                       CallSendBlockchainMessage (Sdk.ToBase64 cell)]).
Proof.
  intros Hsync Hfetch total estimated sent fetched.
  subst total estimated sent fetched.
  unfold estimateTonTransfer, sendTonTransfer,
    checkServiceTimeOrDie, seeIfServiceTimeSync, getWalletBalance,
    mnemonicToPrivateKey, sendBlockchainMessage, emulateMessageToAccountEvent,
    createTonTransfer.
  run_service. rewrite Hsync, Hfetch. simpl.
  split; [|split; [|split; [|split; [|split; [|split]]]]].
  - intros isMax anyAmount secretKey. eexists. split; [reflexivity|]. done.
  - eexists. split; [reflexivity|]. by repeat case_answer.
  - intros e ->. done.
  - intros ->. simpl. eexists. split; [reflexivity|]. by repeat case_answer.
  - eexists. split; [reflexivity|]. by repeat case_answer.
  - intros e ->. done.
  - intros ->. simpl. eexists. split; [reflexivity|]. by repeat case_answer.
Qed.

End SendMax.

(* ===================================================================== *)
(** ** Submission *)
(* ===================================================================== *)

Section Submission.

Context {sdk : Address.Sdk} {common : Common}.

(** C8 (amended). Each submission operation that succeeds has broadcast the
    base64-encoded envelope as its last remote call. Only
    [sendTonConnectTransfer] returns that envelope to the caller;
    [sendTonTransfer] returns no value and [sendTonMultiTransfer] returns
    [true]. *)
Theorem submission_results
    (w : World) (walletState : Wallet.State) (accounts : AccountsMap)
    (params : TonConnect.Payload) (recipient : RecipientData.t)
    (amount : AssetAmount) (isMax : bool) (fee : TransferEstimationEvent)
    (transferMessages : list TransferMessage.t) (feeEstimate : Z)
    (mnemonic : list string) :
  let broadcastLast {A : Type} (run : list Call * result A) :=
    ∃ boc, last (trace run) = Some (CallSendBlockchainMessage boc) in
  returnsBroadcastEnvelope RetEnvelope
    (sendTonConnectTransfer walletState accounts params mnemonic w)
  ∧ (∀ r,
       outcome (sendTonTransfer walletState recipient amount isMax fee
                  mnemonic w) = Ok r →
       r = ()
       ∧ broadcastLast (sendTonTransfer walletState recipient amount isMax fee
                          mnemonic w))
  ∧ (∀ r,
       outcome (sendTonMultiTransfer walletState transferMessages feeEstimate
                  mnemonic w) = Ok r →
       r = true
       ∧ broadcastLast (sendTonMultiTransfer walletState transferMessages
                          feeEstimate mnemonic w)).
Proof.
  intros broadcastLast. subst broadcastLast. unfold returnsBroadcastEnvelope.
  unfold sendTonConnectTransfer, sendTonTransfer, sendTonMultiTransfer,
    checkServiceTimeOrDie, seeIfServiceTimeSync, getWalletBalance,
    getWalletSeqNo, mnemonicToPrivateKey, sendBlockchainMessage,
    createTonConnectTransfer, createTonTransfer, createTonMultiTransfer.
  run_service.
  split; [|split].
  - intros boc. destruct (serviceTimeSync w) as [[|]|]; simpl; try done.
    destruct (fetchWalletSeqNo w _); simpl; try done.
    case_answer; try done. intros [= <-]. eauto.
  - intros r. destruct (serviceTimeSync w) as [[|]|]; simpl; try done.
    destruct (fetchWalletBalance w _) as [[wallet seqno]|]; simpl; try done.
    destruct isMax; simpl.
    + case_answer; try done. intros _. split; [by destruct r | eauto].
    + destruct (checkWalletBalanceOrDie _ wallet); simpl; try done.
      case_answer; try done. intros _. split; [by destruct r | eauto].
  - intros r. destruct (serviceTimeSync w) as [[|]|]; simpl; try done.
    destruct (fetchWalletBalance w _) as [[wallet seqno]|]; simpl; try done.
    destruct (checkWalletBalanceOrDie _ wallet); simpl; try done.
    destruct (checkMaxAllowedMessagesInMultiTransferOrDie _ _); simpl;
      try done.
    case_answer; try done. intros [= <-]. split; [done | eauto].
Qed.

End Submission.

(** C8 (counterexample). A multi-transfer of one message from a funded V4R2
    wallet succeeds and the caller receives [true]; a single transfer
    succeeds and the caller receives no value. Neither receives the
    envelope that was broadcast. *)
Lemma submission_claim_fails :
  let w := sampleWorld true 1000000 in
  let multi :=
    @sendTonMultiTransfer sampleCommon (sampleWallet V4R2) [sampleMessage]
      5000 sampleMnemonic w in
  let single :=
    @sendTonTransfer sampleSdk sampleCommon (sampleWallet V4R2)
      sampleRecipient {| weiAmount := 100 |} false sampleFee sampleMnemonic w in
  (outcome multi = Ok true
   ∧ ¬ returnsBroadcastEnvelope RetBoolean multi)
  ∧ (outcome single = Ok ()
     ∧ ¬ returnsBroadcastEnvelope (λ _, RetUndefined) single).
Proof.
  intros w multi single.
  assert (Hmulti : outcome multi = Ok true) by (by vm_compute).
  assert (Hsingle : outcome single = Ok ()) by (by vm_compute).
  split; (split; [done|]); intros Hall.
  - by destruct (Hall true Hmulti) as (boc & _ & ?).
  - by destruct (Hall () Hsingle) as (boc & _ & ?).
Qed.

(* ===================================================================== *)
(** ** The TonConnect path has no message-count gate of its own *)
(* ===================================================================== *)

Section TonConnectPath.

Context {sdk : Address.Sdk}.


End TonConnectPath.


(* ===================================================================== *)
(** ** The wallet-version list of the settings page *)
(* ===================================================================== *)

(** C6. A wallet-version entry is in the list that the settings page shows
    exactly when it is one of the standard wallets and its version is not a
    backward-compatibility-only version, or a wallet of that version is
    already attached to the account, or its TON balance is not zero, or it
    holds jettons. The page renders this list for an account that is neither
    a ledger nor a keystone account. *)
Theorem wallet_version_shown
    (backwardCompatibilityOnlyWalletVersions : list WalletVersion)
    (wallets : list VersionPage.StandardWallet)
    (currentAccountWalletsVersions : list Wallet.Active)
    (accountType : string) (w : VersionPage.StandardWallet) :
  let toShow :=
    VersionPage.walletsToShow backwardCompatibilityOnlyWalletVersions
      wallets currentAccountWalletsVersions in
  (In w toShow
   ↔ In w wallets
     ∧ (VersionPage.version w ∉ backwardCompatibilityOnlyWalletVersions
        ∨ (∃ item, In item currentAccountWalletsVersions
                   ∧ Wallet.version item = VersionPage.version w)
        ∨ VersionPage.tonBalance w ≠ 0
        ∨ VersionPage.hasJettons w = true))
  ∧ VersionPage.WalletVersionPageContent
      backwardCompatibilityOnlyWalletVersions accountType (Some wallets)
      currentAccountWalletsVersions
    = if bool_decide (accountType = "ledger")
      then VersionPage.LedgerError "ledger_operation_not_supported"
      else if bool_decide (accountType = "keystone")
      then VersionPage.LedgerError "operation_not_supported"
      else VersionPage.ListBlock toShow.
Proof.
  intros toShow. subst toShow. split.
  - unfold VersionPage.walletsToShow, VersionPage.shown.
    rewrite filter_In, !orb_true_iff, negb_true_iff, bool_decide_eq_false,
      existsb_exists, bool_decide_eq_true.
    setoid_rewrite bool_decide_eq_true. tauto.
  - unfold VersionPage.WalletVersionPageContent.
    by repeat case_bool_decide.
Qed.

(* ===================================================================== *)
(** ** The gates on concrete runs *)
(* ===================================================================== *)

(** C2 (witness): amount 995000 plus fee 5000 equals the balance 1000000,
    and the transfer is refused. *)
Lemma non_max_balance_gate_witness :
  outcome (@sendTonTransfer sampleSdk (asSpecified sampleCommon)
             (sampleWallet V4R2) sampleRecipient {| weiAmount := 995000 |}
             false sampleFee sampleMnemonic (sampleWorld true 1000000))
  = Throw NotEnoughBalance.
Proof.
  destruct (@non_max_balance_gate sampleSdk sampleCommon
              (sampleWorld true 1000000) (sampleWallet V4R2) sampleRecipient
              {| weiAmount := 995000 |} sampleFee sampleMnemonic
              (accountOf rawAddr 1000000 "active") 7 eq_refl eq_refl)
    as [Hgate _].
  apply Hgate. simpl. lia.
Defined.


(** C4 (witness): with checks that always throw and an empty wallet, the
    non-max estimate is refused and the max estimate is emulated. *)
Lemma send_max_mode_and_checks_witness :
  let w := sampleWorld true 0 in
  let estimated isMax :=
    @estimateTonTransfer sampleSdk strictCommon (sampleWallet V4R2)
      sampleRecipient 100 isMax w in
  estimated false
  = ([CallServiceTime; CallGetWalletBalance (sampleWallet V4R2)],
     Throw NotEnoughBalance)
  ∧ ∃ cell,
      Sdk.sendMode (Sdk.transfer cell) = 130
      ∧ trace (estimated true)
        = [CallServiceTime; CallGetWalletBalance (sampleWallet V4R2);
           CallCreateTransfer cell;
           CallEmulateMessageToAccountEvent true rawAddr (Sdk.ToBase64 cell)].
Proof.
  destruct (@send_max_mode_and_checks sampleSdk strictCommon
              (sampleWorld true 0) (sampleWallet V4R2) sampleRecipient 100
              {| weiAmount := 100 |} sampleFee sampleMnemonic
              (accountOf rawAddr 0 "active") 7 eq_refl eq_refl)
    as (_ & (cell & Hcell & Hmax) & Hcheck & _).
  split; [apply Hcheck; reflexivity|].
  exists cell. split; [|exact Hmax].
  injection Hcell as <-. reflexivity.
Defined.

(** C5 (witness): a world whose clock is out of sync. *)
Lemma desync_short_circuits_witness :
  @sendTonTransfer sampleSdk sampleCommon (sampleWallet V4R2) sampleRecipient
    {| weiAmount := 100 |} false sampleFee sampleMnemonic
    (sampleWorld false 1000000)
  = ([CallServiceTime], Throw DateAndTime)
  ∧ tonConnectTransferError (sampleWallet V4R2) (samplePayload 1)
      (sampleWorld false 1000000)
    = ([CallServiceTime], Ok KindDateAndTime).
Proof.
  destruct (@desync_short_circuits sampleSdk sampleCommon
              (sampleWorld false 1000000) (sampleWallet V4R2) sampleRecipient
              100 {| weiAmount := 100 |} false sampleFee ∅ (samplePayload 1)
              [sampleMessage] 5000 sampleMnemonic eq_refl)
    as (_ & _ & _ & Hsend & _ & _ & Hkind).
  split; [exact Hsend | exact Hkind].
Defined.



(* ===================================================================== *)
(** ** The accounts map *)
(* ===================================================================== *)

Lemma fold_left_add_sumZ {A : Type} (f : A → Z) (l : list A) (acc : Z) :
  fold_left (λ acc x, acc + f x) l acc = acc + sumZ (map f l).
Proof.
  revert acc. induction l as [|x l IH]; intros acc; simpl; [lia|].
  rewrite IH. unfold sumZ. simpl. lia.
Qed.

(** The requests of [getAccountsMap]: one call per message, and either an
    entry per message with the account the world answered, or the failure of
    a call the world did not answer. *)
Lemma promiseAll_getAccount (messages : list TonConnect.Message) (w : World) :
  let run :=
    promiseAll
      (map (λ message,
              account ← getAccount (TonConnect.address message);
              mret (TonConnect.address message, account)) messages) w in
  run.1 = map CallGetAccount (map TonConnect.address messages)
  ∧ match run.2 with
    | Ok entries =>
        map fst entries = map TonConnect.address messages
        ∧ Forall (λ entry, fetchAccount w entry.1 = Some entry.2) entries
    | Throw e =>
        ∃ failed, failed ∈ map TonConnect.address messages
                  ∧ fetchAccount w failed = None
                  ∧ e = RemoteFailure (CallGetAccount failed)
    end.
Proof.
  induction messages as [|message messages IH]; simpl.
  - split; [done|]. split; [done | constructor].
  - destruct IH as [IHt IHr].
    unfold getAccount at 1. run_service.
    destruct (promiseAll _ w) as [ts rs]. simpl in *.
    destruct (fetchAccount w (TonConnect.address message)) as [account|] eqn:Hf;
      simpl.
    + split; [by rewrite IHt|].
      destruct rs as [entries|e]; simpl.
      * destruct IHr as [Hkeys Hall]. split; [by rewrite Hkeys|].
        constructor; [done | done].
      * destruct IHr as (failed & Hin & Hnone & ->).
        exists failed. split; [by apply list_elem_of_further | done].
    + split; [by rewrite IHt|].
      exists (TonConnect.address message).
      split; [apply list_elem_of_here | done].
Qed.

Lemma newMap_lookup (w : World) (entries : list (string * Account.t)) :
  Forall (λ entry, fetchAccount w entry.1 = Some entry.2) entries →
  ∀ (accounts : AccountsMap) address,
    fold_left (λ accounts entry, <[entry.1 := entry.2]> accounts)
      entries accounts !! address
    = if decide (address ∈ map fst entries) then fetchAccount w address
      else accounts !! address.
Proof.
  induction 1 as [|[key account] entries Hentry Hall IH];
    intros accounts address; cbn [fold_left map].
  - case_decide as Hin; [by apply elem_of_nil in Hin | done].
  - rewrite IH. cbn [fst snd] in *.
    destruct (decide (address = key)) as [->|Hne].
    + rewrite (decide_True (P := key ∈ key :: map fst entries))
        by apply list_elem_of_here.
      case_decide; [done | by rewrite lookup_insert_eq].
    + rewrite lookup_insert_ne by done.
      destruct (decide (address ∈ map fst entries)) as [Hin|Hnotin].
      * by rewrite decide_True by by apply list_elem_of_further.
      * rewrite decide_False; [done|]. by intros [?|?]%elem_of_cons.
Qed.

(** X1. When the remote service answers for every address of the payload,
    [getAccountsMap] makes one account call per message, in order
    (repeated addresses included), and returns a map whose keys are exactly
    the addresses of the payload, each bound to the account the service
    answered for it. *)
Theorem getAccountsMap_fulfilled (params : TonConnect.Payload) (w : World) :
  (∀ address, address ∈ payloadAddresses params →
              is_Some (fetchAccount w address)) →
  ∃ accounts : AccountsMap,
    getAccountsMap params w
    = (map CallGetAccount (payloadAddresses params), Ok accounts)
    ∧ ∀ address,
        accounts !! address
        = if decide (address ∈ payloadAddresses params)
          then fetchAccount w address
          else None.
Proof.
  intros Hanswered. unfold getAccountsMap, payloadAddresses in *.
  pose proof (promiseAll_getAccount (TonConnect.messages params) w)
    as [Htrace Hresult].
  simpl in Htrace, Hresult. run_service.
  destruct (promiseAll _ w) as [ts [entries|e]]; simpl in *.
  - destruct Hresult as [Hkeys Hall]. subst ts.
    eexists. split; [by rewrite app_nil_r|].
    intros address. unfold newMap.
    rewrite (newMap_lookup w entries Hall), Hkeys.
    by rewrite lookup_empty.
  - destruct Hresult as (failed & Hin & Hnone & _).
    destruct (Hanswered failed Hin) as [account Hsome]. congruence.
Qed.

(** X2. When the remote service fails for some address of the payload,
    [getAccountsMap] still makes one account call per message and then fails
    with the failure of an account call that was not answered; it returns no
    partial map. *)
Theorem getAccountsMap_rejected
    (params : TonConnect.Payload) (w : World) (address : string) :
  address ∈ payloadAddresses params →
  fetchAccount w address = None →
  trace (getAccountsMap params w)
  = map CallGetAccount (payloadAddresses params)
  ∧ ∃ failed,
      failed ∈ payloadAddresses params
      ∧ fetchAccount w failed = None
      ∧ outcome (getAccountsMap params w)
        = Throw (RemoteFailure (CallGetAccount failed)).
Proof.
  intros Hin Hnone. unfold getAccountsMap, payloadAddresses in *.
  pose proof (promiseAll_getAccount (TonConnect.messages params) w)
    as [Htrace Hresult].
  simpl in Htrace, Hresult. run_service.
  destruct (promiseAll _ w) as [ts [entries|e]]; simpl in *.
  - destruct Hresult as [Hkeys Hall]. exfalso.
    rewrite <- Hkeys in Hin.
    apply list_elem_of_fmap in Hin as ([key account] & -> & Hentry).
    rewrite Forall_forall in Hall.
    specialize (Hall _ Hentry). simpl in *. congruence.
  - destruct Hresult as (failed & Hfin & Hfnone & ->). eauto.
Qed.

Section FetchedAccounts.

Context {sdk : Address.Sdk} {common : Common}.

(** X3. With the accounts map that [getAccountsMap] returned for the same
    payload, [createTonConnectTransfer] gives every message a defined bounce
    flag: true when the address is syntactically bounceable or the fetched
    account is active, false otherwise. The [undefined] flag of an address
    without entry cannot occur. *)
Theorem fetched_accounts_define_every_flag
    (params : TonConnect.Payload) (w : World) (calls : list Call)
    (accounts : AccountsMap) (seqno : Z) (walletState : Wallet.State)
    (secretKey : Sdk.Buffer) :
  getAccountsMap params w = (calls, Ok accounts) →
  ∃ cell,
    createTonConnectTransfer seqno walletState accounts params secretKey w
    = ([CallCreateTransfer cell], Ok cell)
    ∧ Forall2
        (λ item message,
           ∃ toAccount,
             fetchAccount w (TonConnect.address item) = Some toAccount
             ∧ Sdk.bounce message
               = Some (seeIfAddressBounceable (TonConnect.address item)
                       || bool_decide (Account.status toAccount = "active")))
        (TonConnect.messages params) (Sdk.messages (Sdk.transfer cell)).
Proof.
  intros Hrun.
  assert (Hlookup : ∀ address, address ∈ payloadAddresses params →
            ∃ toAccount, fetchAccount w address = Some toAccount
                         ∧ accounts !! address = Some toAccount).
  { revert Hrun. unfold getAccountsMap, payloadAddresses.
    pose proof (promiseAll_getAccount (TonConnect.messages params) w)
      as [_ Hresult].
    simpl in Hresult. run_service.
    destruct (promiseAll _ w) as [ts [entries|e]]; simpl in *; [|done].
    destruct Hresult as [Hkeys Hall]. intros [= _ <-] address Hin.
    unfold newMap. rewrite (newMap_lookup w entries Hall), Hkeys.
    rewrite decide_True by done.
    rewrite <- Hkeys in Hin.
    apply list_elem_of_fmap in Hin as ([key account] & -> & Hentry).
    rewrite Forall_forall in Hall.
    specialize (Hall _ Hentry). simpl in *. eauto. }
  eexists. split; [reflexivity|]. simpl.
  unfold payloadAddresses in Hlookup.
  induction (TonConnect.messages params) as [|item items IH]; simpl;
    constructor.
  - destruct (Hlookup (TonConnect.address item)) as (toAccount & Hf & Hget);
      [apply list_elem_of_here|].
    exists toAccount. split; [done|]. simpl.
    unfold seeIfBounceable. rewrite Hget.
    by destruct (seeIfAddressBounceable (TonConnect.address item)).
  - apply IH. intros address Hin. apply Hlookup. simpl.
    by apply list_elem_of_further.
Qed.

End FetchedAccounts.

(* ===================================================================== *)
(** ** What the operations ask of their collaborators *)
(* ===================================================================== *)

(** X4. With the clock in sync and the wallet account fetched, for a
    balance that the JavaScript number holds exactly (at most
    [Number.MAX_SAFE_INTEGER] in absolute value) and amounts within the same
    range, [tonConnectTransferError] makes exactly these two calls and
    reports [not-enough-balance] when the sum of the amounts of the payload
    is at least the balance, and no error otherwise. An empty payload sums
    to zero, so it is refused on a wallet whose balance is zero or less. *)
Theorem tonConnectTransferError_verdict
    (walletState : Wallet.State) (params : TonConnect.Payload) (w : World)
    (wallet : Account.t) :
  serviceTimeSync w = Some true →
  fetchAccount w (Wallet.rawAddress (Wallet.active walletState))
  = Some wallet →
  safeInteger (Account.balance wallet) →
  Forall safeInteger (map TonConnect.amount (TonConnect.messages params)) →
  let total := sumZ (map TonConnect.amount (TonConnect.messages params)) in
  tonConnectTransferError walletState params w
  = ([CallServiceTime;
      CallGetAccount (Wallet.rawAddress (Wallet.active walletState))],
     Ok (if decide (Account.balance wallet ≤ total)
         then KindNotEnoughBalance
         else KindUndefined))
  ∧ (TonConnect.messages params = [] → total = 0).
Proof.
  intros Hsync Hfetch _ _ total. subst total. split; [|by intros ->].
  unfold tonConnectTransferError, seeIfServiceTimeSync, getAccount.
  run_service. rewrite Hsync. simpl. rewrite Hfetch. simpl.
  rewrite fold_left_add_sumZ, Z.add_0_l.
  destruct (Z.geb_spec
              (sumZ (map TonConnect.amount (TonConnect.messages params)))
              (Account.balance wallet));
    case_decide; first [done | lia].
Qed.

Section Collaborators.

Context {sdk : Address.Sdk} {common : Common}.

(** Case analysis on the result of a synchronous check. *)
Ltac case_check :=
  match goal with
  | |- context [checkWalletPositiveBalanceOrDie ?a] =>
      destruct (checkWalletPositiveBalanceOrDie a) as [[]|]
  | |- context [checkWalletBalanceOrDie ?t ?a] =>
      destruct (checkWalletBalanceOrDie t a) as [[]|]
  | |- context [checkMaxAllowedMessagesInMultiTransferOrDie ?n ?v] =>
      destruct (checkMaxAllowedMessagesInMultiTransferOrDie n v) as [[]|]
  end; simpl.

(** Case analysis on every answer and every check of a run. *)
Ltac explore := repeat (first [case_answer | case_check]).

(** Unfolds the operations of the service. *)
Ltac unfold_service :=
  unfold estimateTonTransfer, estimateTonConnectTransfer,
    estimateTonMultiTransfer, tonConnectTransferError,
    sendTonTransfer, sendTonConnectTransfer, sendTonMultiTransfer,
    checkServiceTimeOrDie, seeIfServiceTimeSync, getWalletBalance,
    getWalletSeqNo, getAccount, mnemonicToPrivateKey, sendBlockchainMessage,
    emulateMessageToAccountEvent, createTonTransfer,
    createTonConnectTransfer, createTonMultiTransfer;
  run_service.

(** X5. Whatever the world answers and whatever the checks do, the three
    estimate operations and [tonConnectTransferError] never broadcast; an
    envelope they construct is signed with the all-zero placeholder key, and
    they only call the emulation with the signature check turned off. *)
Theorem estimation_never_broadcasts
    (w : World) (walletState : Wallet.State) (recipient : RecipientData.t)
    (weiAmount : Z) (isMax : bool) (accounts : AccountsMap)
    (params : TonConnect.Payload)
    (transferMessages : list TransferMessage.t) :
  Forall estimationCall
    (trace (estimateTonTransfer walletState recipient weiAmount isMax w))
  ∧ Forall estimationCall
      (trace (estimateTonConnectTransfer walletState accounts params w))
  ∧ Forall estimationCall
      (trace (estimateTonMultiTransfer walletState transferMessages w))
  ∧ Forall estimationCall
      (trace (tonConnectTransferError walletState params w)).
Proof.
  unfold_service.
  repeat split.
  - destruct isMax; simpl; explore; by repeat constructor.
  - explore; by repeat constructor.
  - explore; by repeat constructor.
  - explore; try destruct (_ >=? _); by repeat constructor.
Qed.

(** No broadcast call is in a trace that lists none. *)
Ltac not_in_trace :=
  let Hin := fresh "Hin" in
  intros ? Hin;
  repeat (apply elem_of_cons in Hin as [Hin|Hin]; [discriminate|]);
  by apply elem_of_nil in Hin.

(** Nothing was broadcast in a trace without a broadcast call. *)
Ltac no_broadcast :=
  split; [by repeat constructor | left; split; [not_in_trace | eauto]].

(** The run ended with a construction and the broadcast of its envelope. *)
Ltac broadcast_last before :=
  split; [by repeat constructor|];
  right; exists before; eexists;
  split; [reflexivity|];
  split; [not_in_trace|];
  split; [reflexivity | eauto].

(** The envelope constructed in a trace, if any, with what it was built
    from. *)
Ltac constructed :=
  let Hin := fresh "Hin" in
  intros Hin;
  repeat (apply elem_of_cons in Hin as [Hin|Hin];
          [first [discriminate | injection Hin as ->; by repeat esplit]|]);
  by apply elem_of_nil in Hin.

(** X6. No run of a submission operation calls the emulation, and an
    envelope it constructs is signed with the key of the mnemonic. Every run
    either fails without having broadcast anything, or ends with the
    construction of an envelope followed by the broadcast of that very
    envelope, its only broadcast; in that case it succeeds unless the
    broadcast itself is rejected. So a submission that fails with
    [date-and-time], with what a check throws or with the failure of a fetch
    has sent nothing. *)
Theorem submission_broadcasts_once_last
    (w : World) (walletState : Wallet.State) (accounts : AccountsMap)
    (params : TonConnect.Payload) (recipient : RecipientData.t)
    (amount : AssetAmount) (isMax : bool) (fee : TransferEstimationEvent)
    (transferMessages : list TransferMessage.t) (feeEstimate : Z)
    (mnemonic : list string) :
  submissionRun mnemonic
    (sendTonTransfer walletState recipient amount isMax fee mnemonic w)
  ∧ submissionRun mnemonic
      (sendTonConnectTransfer walletState accounts params mnemonic w)
  ∧ submissionRun mnemonic
      (sendTonMultiTransfer walletState transferMessages feeEstimate
         mnemonic w).
Proof.
  unfold submissionRun. unfold_service.
  split; [|split].
  - destruct (serviceTimeSync w) as [[|]|]; simpl; [|no_broadcast..].
    destruct (fetchWalletBalance w walletState) as [[wallet seqno]|]; simpl;
      [|no_broadcast].
    destruct isMax; simpl.
    + case_answer;
        broadcast_last [CallServiceTime; CallGetWalletBalance walletState].
    + case_check; [|no_broadcast].
      case_answer;
        broadcast_last [CallServiceTime; CallGetWalletBalance walletState].
  - destruct (serviceTimeSync w) as [[|]|]; simpl; [|no_broadcast..].
    destruct (fetchWalletSeqNo w _) as [seqno|]; simpl; [|no_broadcast].
    case_answer;
      broadcast_last
        [CallServiceTime;
         CallGetWalletSeqNo (Wallet.rawAddress (Wallet.active walletState))].
  - destruct (serviceTimeSync w) as [[|]|]; simpl; [|no_broadcast..].
    destruct (fetchWalletBalance w walletState) as [[wallet seqno]|]; simpl;
      [|no_broadcast].
    case_check; [|no_broadcast].
    case_check; [|no_broadcast].
    case_answer;
      broadcast_last [CallServiceTime; CallGetWalletBalance walletState].
Qed.

(** X7. An envelope that an operation constructs is built for the wallet
    state it was given, at the sequence number that the remote service
    answered in the same run (with the balance, or, for
    [sendTonConnectTransfer], on its own), with that one number as the
    sequence number of the transfer and of the external message, and with
    the timeout read off the clock. *)
Theorem envelopes_use_fetched_seqno
    (w : World) (walletState : Wallet.State) (accounts : AccountsMap)
    (params : TonConnect.Payload) (recipient : RecipientData.t)
    (requested : Z) (amount : AssetAmount) (isMax : bool)
    (fee : TransferEstimationEvent)
    (transferMessages : list TransferMessage.t) (feeEstimate : Z)
    (mnemonic : list string) (cell : Sdk.Boc) :
  let withBalance {A : Type} (run : list Call * result A) :=
    CallCreateTransfer cell ∈ trace run →
    ∃ wallet seqno,
      fetchWalletBalance w walletState = Some (wallet, seqno)
      ∧ builtFor walletState seqno w cell in
  withBalance (estimateTonTransfer walletState recipient requested isMax w)
  ∧ withBalance (estimateTonConnectTransfer walletState accounts params w)
  ∧ withBalance (estimateTonMultiTransfer walletState transferMessages w)
  ∧ withBalance
      (sendTonTransfer walletState recipient amount isMax fee mnemonic w)
  ∧ withBalance
      (sendTonMultiTransfer walletState transferMessages feeEstimate
         mnemonic w)
  ∧ (CallCreateTransfer cell
     ∈ trace (sendTonConnectTransfer walletState accounts params mnemonic w) →
     ∃ seqno,
       fetchWalletSeqNo w (Wallet.rawAddress (Wallet.active walletState))
       = Some seqno
       ∧ builtFor walletState seqno w cell).
Proof.
  intros withBalance. subst withBalance. unfold builtFor. unfold_service.
  repeat split; try destruct isMax; simpl; explore; constructed.
Qed.

End Collaborators.

(* ===================================================================== *)
(** ** The messages of a constructed transfer *)
(* ===================================================================== *)

Section Messages.

Context {sdk : Address.Sdk} {common : Common}.

(** X8. No transfer is constructed with an empty part: an empty comment
    (single and multi transfers), an empty payload or an empty state init
    (TonConnect transfers) is left out of the message, like an absent one,
    instead of being sent as an empty text or decoded as an empty cell. *)
Theorem no_empty_message_parts
    (w : World) (seqno : Z) (walletState : Wallet.State)
    (recipient : RecipientData.t) (weiAmount : Z) (isMax : bool)
    (secretKey : Sdk.Buffer) (accounts : AccountsMap)
    (params : TonConnect.Payload)
    (transferMessages : list TransferMessage.t)
    (optionalKey : option Sdk.Buffer) :
  (∃ cell,
     createTonTransfer seqno walletState recipient weiAmount isMax secretKey w
     = ([CallCreateTransfer cell], Ok cell)
     ∧ Forall (λ message, ¬ hasEmptyPart message)
         (Sdk.messages (Sdk.transfer cell)))
  ∧ (∃ cell,
       createTonConnectTransfer seqno walletState accounts params secretKey w
       = ([CallCreateTransfer cell], Ok cell)
       ∧ Forall (λ message, ¬ hasEmptyPart message)
           (Sdk.messages (Sdk.transfer cell)))
  ∧ (∃ cell,
       createTonMultiTransfer seqno walletState transferMessages
         optionalKey w
       = ([CallCreateTransfer cell], Ok cell)
       ∧ Forall (λ message, ¬ hasEmptyPart message)
           (Sdk.messages (Sdk.transfer cell))).
Proof.
  unfold hasEmptyPart. repeat split; eexists; (split; [reflexivity|]); simpl.
  - repeat constructor. simpl.
    intros [Hbody|[Hbody|Hinit]]; try done;
      case_bool_decide; [congruence | done..].
  - apply Forall_fmap, Forall_forall. intros item _. simpl.
    unfold toStateInit.
    destruct (TonConnect.payload item) as [payload|],
             (TonConnect.stateInit item) as [stateInit|];
      repeat case_bool_decide; intros [?|[?|?]]; congruence.
  - apply Forall_fmap, Forall_forall. intros msg _. simpl.
    destruct (TransferMessage.comment msg) as [comment|];
      repeat case_bool_decide; intros [?|[?|?]]; congruence.
Qed.

End Messages.

(* ===================================================================== *)
(** ** The entries of the wallet-version page *)
(* ===================================================================== *)

Lemma isWalletAdded_spec
    (current : list Wallet.Active) (wallet : VersionPage.StandardWallet) :
  VersionEntries.isWalletAdded current wallet = true
  ↔ ∃ w, w ∈ current ∧ Wallet.rawAddress w = VersionPage.address wallet.
Proof.
  unfold VersionEntries.isWalletAdded. rewrite existsb_exists.
  setoid_rewrite bool_decide_eq_true. setoid_rewrite list_elem_of_In. done.
Qed.

Lemma shown_spec
    (backcompat : list WalletVersion) (current : list Wallet.Active)
    (w : VersionPage.StandardWallet) :
  VersionPage.shown backcompat current w = true
  ↔ VersionPage.version w ∉ backcompat
    ∨ (∃ item, item ∈ current
               ∧ Wallet.version item = VersionPage.version w)
    ∨ VersionPage.tonBalance w ≠ 0
    ∨ VersionPage.hasJettons w = true.
Proof.
  unfold VersionPage.shown.
  rewrite !orb_true_iff, negb_true_iff, bool_decide_eq_false,
    existsb_exists, bool_decide_eq_true.
  setoid_rewrite bool_decide_eq_true. setoid_rewrite list_elem_of_In. tauto.
Qed.

Lemma elem_of_walletsToShow
    (backcompat : list WalletVersion)
    (wallets : list VersionPage.StandardWallet)
    (current : list Wallet.Active) (w : VersionPage.StandardWallet) :
  w ∈ VersionPage.walletsToShow backcompat wallets current
  ↔ w ∈ wallets ∧ VersionPage.shown backcompat current w = true.
Proof.
  unfold VersionPage.walletsToShow.
  by rewrite !list_elem_of_In, filter_In.
Qed.

Lemma buttons_cases
    (current : list Wallet.Active) (wallet : VersionPage.StandardWallet) :
  let attached :=
    ∃ w, w ∈ current ∧ Wallet.rawAddress w = VersionPage.address wallet in
  (attached ∧ (1 < length current)%nat
   ∧ VersionEntries.buttons current wallet
     = [VersionEntries.Open; VersionEntries.Hide])
  ∨ (attached ∧ (length current ≤ 1)%nat
     ∧ VersionEntries.buttons current wallet = [VersionEntries.Open])
  ∨ (¬ attached
     ∧ VersionEntries.buttons current wallet = [VersionEntries.Add]).
Proof.
  intros attached. subst attached.
  pose proof (isWalletAdded_spec current wallet) as Hadded.
  unfold VersionEntries.buttons, VersionEntries.canHide.
  destruct (VersionEntries.isWalletAdded current wallet).
  - case_bool_decide.
    + left. split; [by apply Hadded | done].
    + right. left. split; [by apply Hadded|]. split; [lia | done].
  - right. right. split; [|done]. intros Hattached.
    by apply Hadded in Hattached.
Qed.

(** X10. An entry of the wallet-version page shows either [add] alone, or
    [open], or [open] and [hide]. It shows [add] exactly when no attached
    wallet has its address, and [hide] exactly when an attached wallet has
    its address and the account has more than one wallet attached. So for
    an account with a single attached wallet no entry of the page offers to
    hide a wallet. *)
Theorem entry_buttons
    (current : list Wallet.Active) (wallet : VersionPage.StandardWallet) :
  let offered := VersionEntries.buttons current wallet in
  let attached :=
    ∃ w, w ∈ current ∧ Wallet.rawAddress w = VersionPage.address wallet in
  (offered = [VersionEntries.Add]
   ∨ offered = [VersionEntries.Open]
   ∨ offered = [VersionEntries.Open; VersionEntries.Hide])
  ∧ (VersionEntries.Add ∈ offered ↔ ¬ attached)
  ∧ (VersionEntries.Open ∈ offered ↔ attached)
  ∧ (VersionEntries.Hide ∈ offered
     ↔ attached ∧ (1 < length current)%nat)
  ∧ ((length current ≤ 1)%nat →
     ∀ backcompat wallets item,
       item ∈ VersionEntries.listItems backcompat wallets current →
       VersionEntries.Hide ∉ item.2).
Proof.
  intros offered attached. subst offered attached.
  split; [|split; [|split; [|split]]].
  1-4: destruct (buttons_cases current wallet)
         as [(Ha & Hlen & ->)|[(Ha & Hlen & ->)|(Ha & ->)]];
       rewrite ?elem_of_cons, ?elem_of_nil;
       try (intuition (first [discriminate | lia | eauto])).
  intros Hle backcompat wallets item Hitem.
  unfold VersionEntries.listItems in Hitem.
  apply list_elem_of_fmap in Hitem as (entry & -> & _). simpl.
  destruct (buttons_cases current entry)
    as [(_ & Hlen & ->)|[(_ & _ & ->)|(_ & ->)]];
    rewrite ?elem_of_cons, ?elem_of_nil;
    intuition (first [discriminate | lia]).
Qed.

(** X11. The list that the page shows is the list of standard wallets with
    some entries left out: it keeps their order and adds nothing. Attaching
    further wallets to the account never removes an entry from it, filtering
    it again changes nothing, and when no standard wallet is of a
    backward-compatibility-only version the list is shown whole. *)
Theorem walletsToShow_structure
    (backcompat : list WalletVersion)
    (wallets : list VersionPage.StandardWallet)
    (current : list Wallet.Active) :
  let toShow := VersionPage.walletsToShow backcompat wallets current in
  sublist toShow wallets
  ∧ (∀ more w,
       w ∈ toShow →
       w ∈ VersionPage.walletsToShow backcompat wallets (current ++ more))
  ∧ VersionPage.walletsToShow backcompat toShow current = toShow
  ∧ ((∀ w, w ∈ wallets → VersionPage.version w ∉ backcompat) →
     toShow = wallets).
Proof.
  intros toShow. subst toShow. repeat split.
  - unfold VersionPage.walletsToShow.
    induction wallets as [|w wallets IH]; simpl; [constructor|].
    destruct (VersionPage.shown backcompat current w);
      by constructor.
  - intros more w. rewrite !elem_of_walletsToShow, !shown_spec.
    intros [Hin Hshown]. split; [done|].
    destruct Hshown as [?|[(item & Hitem & Hversion)|?]]; [tauto| |tauto].
    right. left. exists item. split; [|done].
    apply elem_of_app. by left.
  - unfold VersionPage.walletsToShow.
    induction wallets as [|w wallets IH]; simpl; [done|].
    destruct (VersionPage.shown backcompat current w) eqn:Hshown; simpl;
      [|done].
    by rewrite Hshown, IH.
  - intros Hprimary. unfold VersionPage.walletsToShow.
    induction wallets as [|w wallets IH]; simpl; [done|].
    assert (Hshown : VersionPage.shown backcompat current w = true).
    { apply shown_spec. left. apply Hprimary, list_elem_of_here. }
    rewrite Hshown. f_equal. apply IH.
    intros w' Hin. by apply Hprimary, list_elem_of_further.
Qed.


(* ===================================================================== *)
(** ** The entries of the settings page *)
(* ===================================================================== *)

Section SettingsEntries.

Variable t : string → string.

Context {Jetton Nft : Type}.

Lemma multipleMainItems_single
    (account : AccountSettings.Account) (version : WalletVersion)
    (jettons : option (list Jetton)) (nft : option (list Nft)) :
  AccountSettings.multipleMainItems t account version jettons nft
  = AccountSettings.singleMainItems t account version false jettons nft
    ++ [AccountSettings.deleteItem t].
Proof.
  unfold AccountSettings.multipleMainItems, AccountSettings.singleMainItems,
    AccountSettings.pushIf, AccountSettings.unshiftIf.
  destruct (AccountSettings.isMnemonic account),
           (AccountSettings.isTonOnly account),
           (AccountSettings.isLedger account
            && bool_decide
                 (1 < length (AccountSettings.allAvailableDerivations
                                account))%nat),
           (AccountSettings.nonEmpty jettons),
           (AccountSettings.nonEmpty nft); reflexivity.
Qed.

(** X13. The two hand-written lists of the settings page agree: the main
    entries for several accounts are the main entries for a single account
    without Pro features, followed by the entry that deletes the wallet
    data; with Pro features the single-account list only gains the Pro
    entry, in front, while for several accounts the Pro entry goes to the
    account list, after the entry that manages the wallets. *)
Theorem settings_lists_agree
    (account : AccountSettings.Account) (version : WalletVersion)
    (jettons : option (list Jetton)) (nft : option (list Nft)) :
  AccountSettings.multipleMainItems t account version jettons nft
  = AccountSettings.singleMainItems t account version false jettons nft
    ++ [AccountSettings.deleteItem t]
  ∧ AccountSettings.singleMainItems t account version true jettons nft
    = AccountSettings.proItem t
      :: AccountSettings.singleMainItems t account version false jettons nft
  ∧ AccountSettings.multipleAccountItems t true
    = [AccountSettings.manageItem t; AccountSettings.proItem t]
  ∧ AccountSettings.multipleAccountItems t false
    = [AccountSettings.manageItem t].
Proof.
  unfold AccountSettings.multipleMainItems, AccountSettings.singleMainItems,
    AccountSettings.multipleAccountItems, AccountSettings.pushIf,
    AccountSettings.unshiftIf.
  repeat split;
    destruct (AccountSettings.isMnemonic account),
             (AccountSettings.isTonOnly account),
             (AccountSettings.isLedger account
              && bool_decide
                   (1 < length (AccountSettings.allAvailableDerivations
                                  account))%nat),
             (AccountSettings.nonEmpty jettons),
             (AccountSettings.nonEmpty nft); reflexivity.
Qed.

(** The actions of the main entries for a single account, by cases on what
    the entries depend on. *)
Lemma singleMainItems_actions
    (account : AccountSettings.Account) (version : WalletVersion)
    (proFeatures : bool)
    (jettons : option (list Jetton)) (nft : option (list Nft)) :
  map AccountSettings.action
    (AccountSettings.singleMainItems t account version proFeatures jettons nft)
  = (if proFeatures
     then [AccountSettings.Navigate AccountSettings.SettingsRoute_pro]
     else [])
    ++ (if AccountSettings.isMnemonic account
        then [AccountSettings.Navigate AccountSettings.SettingsRoute_recovery]
        else [])
    ++ (if AccountSettings.isMnemonic account
           || AccountSettings.isTonOnly account
        then [AccountSettings.Navigate AccountSettings.SettingsRoute_version]
        else [])
    ++ (if AccountSettings.isLedger account
           && bool_decide
                (1 < length (AccountSettings.allAvailableDerivations
                               account))%nat
        then [AccountSettings.Navigate
                AccountSettings.SettingsRoute_ledgerIndexes]
        else [])
    ++ (if AccountSettings.nonEmpty jettons
        then [AccountSettings.Navigate AccountSettings.SettingsRoute_jettons]
        else [])
    ++ (if AccountSettings.nonEmpty nft
        then [AccountSettings.Navigate AccountSettings.SettingsRoute_nft]
        else [])
    ++ [AccountSettings.Navigate AccountSettings.SettingsRoute_security;
        AccountSettings.Navigate
          AccountSettings.WalletSettingsRoute_connectedApps].
Proof.
  unfold AccountSettings.singleMainItems, AccountSettings.pushIf,
    AccountSettings.unshiftIf.
  destruct proFeatures,
           (AccountSettings.isMnemonic account),
           (AccountSettings.isTonOnly account),
           (AccountSettings.isLedger account
            && bool_decide
                 (1 < length (AccountSettings.allAvailableDerivations
                                account))%nat),
           (AccountSettings.nonEmpty jettons),
           (AccountSettings.nonEmpty nft); reflexivity.
Qed.

(** X14. The settings page offers the wallet-version entry exactly to
    accounts of type [mnemonic] or [ton-only], in both layouts; for those
    accounts the wallet-version page, once the standard wallets are loaded,
    renders the list of versions and never the not-supported message. *)
Theorem version_entry_leads_to_list
    (accountsLength : nat) (account : AccountSettings.Account)
    (version : WalletVersion) (proFeatures : bool)
    (jettons : option (list Jetton)) (nft : option (list Nft))
    (backcompat : list WalletVersion)
    (wallets : list VersionPage.StandardWallet)
    (current : list Wallet.Active) :
  let offered :=
    ∃ items item,
      items ∈ AccountSettings.AccountSettings t accountsLength account version
                proFeatures jettons nft
      ∧ item ∈ items
      ∧ AccountSettings.action item
        = AccountSettings.Navigate AccountSettings.SettingsRoute_version in
  (offered ↔ AccountSettings.type account = "mnemonic"
             ∨ AccountSettings.type account = "ton-only")
  ∧ (offered →
     VersionPage.WalletVersionPageContent backcompat
       (AccountSettings.type account) (Some wallets) current
     = VersionPage.ListBlock
         (VersionPage.walletsToShow backcompat wallets current)).
Proof.
  intros offered.
  assert (Hoffered : offered ↔ AccountSettings.type account = "mnemonic"
                               ∨ AccountSettings.type account = "ton-only").
  { subst offered. unfold AccountSettings.AccountSettings.
    assert (Hsingle : ∀ pro,
      (∃ item,
         item ∈ AccountSettings.singleMainItems t account version pro
                  jettons nft
         ∧ AccountSettings.action item
           = AccountSettings.Navigate AccountSettings.SettingsRoute_version)
      ↔ AccountSettings.type account = "mnemonic"
        ∨ AccountSettings.type account = "ton-only").
    { intros pro.
      transitivity
        (AccountSettings.Navigate AccountSettings.SettingsRoute_version
         ∈ map AccountSettings.action
             (AccountSettings.singleMainItems t account version pro
                jettons nft)).
      { rewrite list_elem_of_fmap. split.
        - intros (item & Hin & Haction). eauto.
        - intros (item & Haction & Hin). eauto. }
      rewrite singleMainItems_actions.
      unfold AccountSettings.isMnemonic, AccountSettings.isTonOnly.
      rewrite !elem_of_app, !elem_of_cons, !elem_of_nil.
      destruct pro,
               (AccountSettings.isLedger account && _),
               (AccountSettings.nonEmpty jettons),
               (AccountSettings.nonEmpty nft);
        repeat case_bool_decide; simpl;
        rewrite ?elem_of_cons, ?elem_of_nil;
        intuition (first [discriminate | eauto]). }
    case_bool_decide.
    - pose proof (multipleMainItems_single account version jettons nft)
        as Hmulti.
      rewrite <- (Hsingle false). split.
      + intros (items & item & Hitems & Hitem & Haction).
        apply elem_of_cons in Hitems as [->|Hitems].
        * exfalso. revert Hitem Haction. clear.
          unfold AccountSettings.multipleAccountItems,
            AccountSettings.pushIf.
          destruct proFeatures; simpl;
            rewrite ?elem_of_cons, ?elem_of_nil;
            intuition (subst; discriminate).
        * apply list_elem_of_singleton in Hitems as ->.
          rewrite Hmulti in Hitem.
          apply elem_of_app in Hitem as [Hitem|Hitem]; [eauto|].
          apply list_elem_of_singleton in Hitem as ->. discriminate.
      + intros (item & Hitem & Haction).
        eexists _, item. split; [|split; [|done]].
        * apply list_elem_of_further, list_elem_of_here.
        * rewrite Hmulti. apply elem_of_app. by left.
    - rewrite <- (Hsingle proFeatures). split.
      + intros (items & item & Hitems & Hitem & Haction).
        apply list_elem_of_singleton in Hitems as ->. eauto.
      + intros (item & Hitem & Haction).
        eexists _, item. split; [apply list_elem_of_here | done]. }
  split; [done|].
  intros Hyes. apply Hoffered in Hyes.
  unfold VersionPage.WalletVersionPageContent.
  destruct Hyes as [-> | ->]; reflexivity.
Qed.

(** X15. The main entries for a single account never hold two entries with
    the same action; they always end with the security entry and the
    connected-apps entry; the recovery-phrase entry is there exactly for a
    [mnemonic] account, the ledger-indexes entry exactly for a [ledger]
    account with more than one available derivation, and no list holds
    both. *)
Theorem single_account_entries
    (account : AccountSettings.Account) (version : WalletVersion)
    (proFeatures : bool)
    (jettons : option (list Jetton)) (nft : option (list Nft)) :
  let actions :=
    map AccountSettings.action
      (AccountSettings.singleMainItems t account version proFeatures
         jettons nft) in
  let recovery :=
    AccountSettings.Navigate AccountSettings.SettingsRoute_recovery in
  let ledgerIndexes :=
    AccountSettings.Navigate AccountSettings.SettingsRoute_ledgerIndexes in
  NoDup actions
  ∧ (∃ before,
       actions
       = before
         ++ [AccountSettings.Navigate AccountSettings.SettingsRoute_security;
             AccountSettings.Navigate
               AccountSettings.WalletSettingsRoute_connectedApps])
  ∧ (recovery ∈ actions ↔ AccountSettings.type account = "mnemonic")
  ∧ (ledgerIndexes ∈ actions
     ↔ AccountSettings.type account = "ledger"
       ∧ (1 < length (AccountSettings.allAvailableDerivations account))%nat)
  ∧ ¬ (recovery ∈ actions ∧ ledgerIndexes ∈ actions).
Proof.
  intros actions recovery ledgerIndexes. subst actions recovery ledgerIndexes.
  rewrite singleMainItems_actions.
  unfold AccountSettings.isMnemonic, AccountSettings.isTonOnly,
    AccountSettings.isLedger.
  split; [|split; [|split; [|split]]].
  - destruct proFeatures,
             (AccountSettings.nonEmpty jettons),
             (AccountSettings.nonEmpty nft);
      repeat case_bool_decide; simpl;
      by apply (bool_decide_unpack _).
  - eexists. by rewrite !app_assoc.
  - destruct proFeatures,
             (AccountSettings.nonEmpty jettons),
             (AccountSettings.nonEmpty nft);
      repeat case_bool_decide; simpl;
      rewrite ?elem_of_cons, ?elem_of_nil;
      intuition (first [discriminate | congruence]).
  - destruct proFeatures,
             (AccountSettings.nonEmpty jettons),
             (AccountSettings.nonEmpty nft);
      repeat case_bool_decide; simpl;
      rewrite ?elem_of_cons, ?elem_of_nil;
      intuition (first [discriminate | congruence | lia]).
  - destruct proFeatures,
             (AccountSettings.nonEmpty jettons),
             (AccountSettings.nonEmpty nft);
      repeat case_bool_decide; simpl;
      rewrite ?elem_of_cons, ?elem_of_nil;
      intuition (first [discriminate | congruence]).
Qed.

End SettingsEntries.

(* ===================================================================== *)
(** ** The JSON converters of [RequestData] *)
(* ===================================================================== *)

Lemma map_fixed {A : Type} (f : A → A) (l : list A) :
  Forall (λ x, f x = x) l → map f l = l.
Proof. induction 1 as [|x l Hx _ IH]; simpl; [done|]. by rewrite Hx, IH. Qed.

Section RequestDataJson.

Context {MessageJson RequestMessage Other : Type}.

Variable RequestMessageFromJSON : MessageJson → RequestMessage.
Variable RequestMessageToJSON : RequestMessage → MessageJson.

Abbreviation Value := (@RequestData.Value MessageJson Other).
Abbreviation fromJSON :=
  (@RequestData.RequestDataFromJSON MessageJson RequestMessage
     RequestMessageFromJSON Other).
Abbreviation toJSON :=
  (@RequestData.RequestDataToJSON MessageJson RequestMessage
     RequestMessageToJSON Other).

(** The fields of the object that [RequestDataToJSON] builds. *)
Lemma toJSON_fields (value : RequestData.t) (key : string) :
  ∃ fields : gmap string Value,
    toJSON (RequestData.ValueOf value) = RequestData.JsonObject fields
    ∧ fields !! "fee" = Some (RequestData.fee value)
    ∧ fields !! "feeToken" = Some (RequestData.feeToken value)
    ∧ fields !! "feeReceiver" = Some (RequestData.feeReceiver value)
    ∧ fields !! "deadline" = Some (RequestData.deadline value)
    ∧ fields !! "nonce" = Some (RequestData.nonce value)
    ∧ fields !! "messages"
      = Some (RequestData.Array
                (map RequestMessageToJSON (RequestData.messages value)))
    ∧ (key ∉ RequestData.keys → fields !! key = None).
Proof.
  eexists. split; [reflexivity|].
  repeat split; try by simplify_map_eq.
  unfold RequestData.keys. rewrite !elem_of_cons, elem_of_nil.
  intros Hkey. rewrite !lookup_insert_ne by (intuition congruence).
  apply lookup_empty.
Qed.

(** X16. Converting a [RequestData] to JSON and back gives the same value,
    provided the message converters of [./RequestMessage] do so on its
    messages; and the JSON object of any [RequestData] passes
    [instanceOfRequestData]. *)
Theorem RequestData_to_from_JSON (value : RequestData.t) :
  Forall (λ message,
            RequestMessageFromJSON (RequestMessageToJSON message) = message)
         (RequestData.messages value) →
  fromJSON (toJSON (RequestData.ValueOf value)) = RequestData.Converted_ value
  ∧ ∃ fields,
      toJSON (RequestData.ValueOf value) = RequestData.JsonObject fields
      ∧ RequestData.instanceOfRequestData fields = true.
Proof.
  intros Hmessages.
  destruct (toJSON_fields value "fee")
    as (fields & Hjson & Hfee & HfeeToken & HfeeReceiver & Hdeadline
        & Hnonce & Hmsgs & _).
  rewrite Hjson. split.
  - unfold RequestData.RequestDataFromJSON,
      RequestData.RequestDataFromJSONTyped, RequestData.get.
    rewrite Hfee, HfeeToken, HfeeReceiver, Hdeadline, Hnonce, Hmsgs. simpl.
    rewrite map_map, (map_fixed _ _ Hmessages). by destruct value.
  - exists fields. split; [done|].
    unfold RequestData.instanceOfRequestData, RequestData.has.
    rewrite Hfee, HfeeToken, HfeeReceiver, Hdeadline, Hnonce, Hmsgs.
    by rewrite !bool_decide_true by eauto.
Qed.

(** X17. Converting a JSON object whose [messages] is an array to a
    [RequestData] and back gives an object with exactly the six keys of a
    [RequestData]: a key the object had keeps its value (the messages
    provided the message converters give them back), a key it lacked is
    there with the value [undefined], and any other key is dropped. *)
Theorem RequestData_from_to_JSON
    (fields : gmap string Value) (items : list MessageJson) :
  fields !! "messages" = Some (RequestData.Array items) →
  Forall (λ item, RequestMessageToJSON (RequestMessageFromJSON item) = item)
         items →
  ∃ value back,
    fromJSON (RequestData.JsonObject fields) = RequestData.Converted_ value
    ∧ toJSON (RequestData.ValueOf value) = RequestData.JsonObject back
    ∧ ∀ key,
        back !! key
        = if decide (key ∈ RequestData.keys)
          then Some (RequestData.get fields key)
          else None.
Proof.
  intros Hget Hitems.
  unfold RequestData.RequestDataFromJSON,
    RequestData.RequestDataFromJSONTyped.
  unfold RequestData.get at 1. rewrite Hget. simpl.
  eexists. 
  match goal with
  | |- ∃ back, RequestData.Converted_ ?v = _ ∧ _ =>
      destruct (toJSON_fields v "fee") as (back & Hjson & _)
  end.
  exists back. split; [reflexivity|]. split; [exact Hjson|].
  intros key.
  match goal with
  | H : toJSON (RequestData.ValueOf ?v) = _ |- _ =>
      destruct (toJSON_fields v key)
        as (back' & Hjson' & Hfee & HfeeToken & HfeeReceiver & Hdeadline
            & Hnonce & Hmsgs & Hother)
  end.
  rewrite Hjson in Hjson'. injection Hjson' as <-.
  simpl in *.
  assert (Hback : map RequestMessageToJSON (map RequestMessageFromJSON items)
                  = items).
  { by rewrite map_map, (map_fixed _ _ Hitems). }
  rewrite Hback in Hmsgs.
  case_decide as Hkey.
  - unfold RequestData.keys in Hkey.
    rewrite !elem_of_cons, elem_of_nil in Hkey.
    destruct Hkey as [->|[->|[->|[->|[->|[->|[]]]]]]]; try done.
    rewrite Hmsgs. unfold RequestData.get. by rewrite Hget.
  - by apply Hother.
Qed.

(** X18. [undefined] and [null] pass through both converters unchanged. For
    a JSON object, [RequestDataFromJSON] throws a [TypeError] exactly when
    the value of [messages] is not an array (absent, [null] or anything
    else); the absence of any other key is no error, the field is
    [undefined]. So an object that fails [instanceOfRequestData] may still
    convert, and one that passes it may still throw. *)
Theorem RequestData_conversion_errors (fields : gmap string Value) :
  fromJSON RequestData.JsonUndefined = RequestData.ConvertedUndefined
  ∧ fromJSON RequestData.JsonNull = RequestData.ConvertedNull
  ∧ toJSON RequestData.ValueUndefined = RequestData.JsonUndefined
  ∧ toJSON RequestData.ValueNull = RequestData.JsonNull
  ∧ (fromJSON (RequestData.JsonObject fields) = RequestData.TypeError
     ↔ ∀ items, fields !! "messages" ≠ Some (RequestData.Array items))
  ∧ (∀ items,
       fields !! "messages" = Some (RequestData.Array items) →
       ∃ value,
         fromJSON (RequestData.JsonObject fields)
         = RequestData.Converted_ value
         ∧ (fields !! "fee" = None →
            RequestData.fee value = RequestData.Undefined
            ∧ RequestData.instanceOfRequestData fields = false))
  ∧ (fields !! "messages" = Some RequestData.Null →
     fromJSON (RequestData.JsonObject fields) = RequestData.TypeError).
Proof.
  unfold RequestData.RequestDataFromJSON,
    RequestData.RequestDataFromJSONTyped.
  repeat split; try done.
  - unfold RequestData.get.
    destruct (fields !! "messages") as [[| |items|other]|]; simpl; try done.
  - unfold RequestData.get. intros Hnot.
    destruct (fields !! "messages") as [[| |items|other]|]; simpl; try done.
    by destruct (Hnot items).
  - intros items Hget. unfold RequestData.get at 1. rewrite Hget. simpl.
    eexists. split; [reflexivity|]. intros Hfee. simpl. split.
    + unfold RequestData.get. by rewrite Hfee.
    + unfold RequestData.instanceOfRequestData, RequestData.has.
      by rewrite Hfee.
  - intros Hget. unfold RequestData.get. by rewrite Hget.
Qed.

End RequestDataJson.

(* ===================================================================== *)
(** ** The added properties on concrete inputs *)
(* ===================================================================== *)

(** X1 (witness): the two accounts of [mixedPayload]. *)
Lemma getAccountsMap_fulfilled_witness :
  ∃ accounts : AccountsMap,
    getAccountsMap mixedPayload (sampleWorld true 1000)
    = ([CallGetAccount bounceableAddr; CallGetAccount nonBounceableAddr],
       Ok accounts)
    ∧ accounts !! nonBounceableAddr
      = Some (accountOf nonBounceableAddr 1000 "active")
    ∧ accounts !! rawAddr = None.
Proof.
  destruct (getAccountsMap_fulfilled mixedPayload (sampleWorld true 1000))
    as (accounts & Hrun & Hlookup).
  { intros address _. by eexists. }
  exists accounts. split; [exact Hrun|].
  split; rewrite Hlookup; reflexivity.
Defined.

(** X2 (witness): the account call fails for the second address only; both
    calls are made. *)
Lemma getAccountsMap_rejected_witness :
  getAccountsMap mixedPayload (worldWithout nonBounceableAddr 1000)
  = ([CallGetAccount bounceableAddr; CallGetAccount nonBounceableAddr],
     Throw (RemoteFailure (CallGetAccount nonBounceableAddr))).
Proof.
  destruct (getAccountsMap_rejected mixedPayload
              (worldWithout nonBounceableAddr 1000) nonBounceableAddr)
    as (Htrace & failed & _ & _ & Houtcome).
  - apply list_elem_of_further, list_elem_of_here.
  - reflexivity.
  - reflexivity.
Defined.

(** X3 (witness): both accounts are fetched and not active, so the flags
    follow the addresses. *)
Lemma fetched_accounts_define_every_flag_witness :
  ∃ accounts cell,
    getAccountsMap mixedPayload (worldWithout rawAddr 1000)
    = ([CallGetAccount bounceableAddr; CallGetAccount nonBounceableAddr],
       Ok accounts)
    ∧ @createTonConnectTransfer sampleSdk sampleCommon 7 (sampleWallet W5)
        accounts mixedPayload (Sdk.Alloc 64) (worldWithout rawAddr 1000)
      = ([CallCreateTransfer cell], Ok cell)
    ∧ map Sdk.bounce (Sdk.messages (Sdk.transfer cell))
      = [Some true; Some false].
Proof.
  destruct (getAccountsMap mixedPayload (worldWithout rawAddr 1000))
    as [calls [accounts|e]] eqn:Hrun; [|by vm_compute in Hrun].
  destruct (@fetched_accounts_define_every_flag sampleSdk sampleCommon
              mixedPayload (worldWithout rawAddr 1000) calls accounts 7
              (sampleWallet W5) (Sdk.Alloc 64) Hrun)
    as (cell & Hcell & Hflags).
  exists accounts, cell.
  split; [by vm_compute in Hrun; injection Hrun as <- <-|].
  split; [exact Hcell|].
  apply Forall2_cons_inv_l in Hflags
    as (first & rest & (a1 & Hf1 & Hb1) & Hflags & ->).
  apply Forall2_cons_inv_l in Hflags
    as (second & rest' & (a2 & Hf2 & Hb2) & Hflags & ->).
  apply Forall2_nil_inv_l in Hflags as ->.
  injection Hf1 as <-. injection Hf2 as <-.
  simpl. by rewrite Hb1, Hb2.
Defined.

(** X4 (witness): an empty payload on a wallet without balance. *)
Lemma tonConnectTransferError_verdict_witness :
  tonConnectTransferError (sampleWallet V4R2) (samplePayload 0)
    (sampleWorld true 0)
  = ([CallServiceTime; CallGetAccount rawAddr], Ok KindNotEnoughBalance).
Proof.
  destruct (tonConnectTransferError_verdict (sampleWallet V4R2)
              (samplePayload 0) (sampleWorld true 0)
              (accountOf rawAddr 0 "active") eq_refl eq_refl)
    as [Hrun _].
  - by vm_compute.
  - constructor.
  - exact Hrun.
Defined.


(** X16 (witness): messages that are strings, converted by the identity. *)
Lemma RequestData_to_from_JSON_witness :
  RequestData.RequestDataFromJSON id
    (RequestData.RequestDataToJSON id (RequestData.ValueOf sampleRequestData))
  = RequestData.Converted_ sampleRequestData.
Proof.
  destruct (RequestData_to_from_JSON (Other := string) id id
              sampleRequestData) as [Hback _].
  - by repeat constructor.
  - exact Hback.
Defined.

(** X17 (witness): the unknown key is dropped and the missing ones are
    there, [undefined]. *)
Lemma RequestData_from_to_JSON_witness :
  ∃ value back,
    RequestData.RequestDataFromJSON id
      (RequestData.JsonObject sampleRequestJson)
    = RequestData.Converted_ value
    ∧ RequestData.RequestDataToJSON id (RequestData.ValueOf value)
      = RequestData.JsonObject back
    ∧ back !! "extra" = None
    ∧ back !! "fee" = Some RequestData.Undefined
    ∧ back !! "messages" = Some (RequestData.Array ["first"]).
Proof.
  destruct (RequestData_from_to_JSON (Other := string) id id
              sampleRequestJson ["first"])
    as (value & back & Hfrom & Hto & Hkeys).
  - reflexivity.
  - by repeat constructor.
  - exists value, back. split; [exact Hfrom|]. split; [exact Hto|].
    rewrite !Hkeys. repeat split; reflexivity.
Defined.
